(** * SummarAI: the chunked summarizer of [app/services/summarization_service.py]

    A shallow embedding of the summarization service of the backend
    ([generate_summary], [chunk_text], [summarize_long_text],
    [create_summary]), of the request schema [SummaryCreate] and of the
    [/summaries/generate] route, together with the properties of the
    long-document strategy: how many times the BART model is called, on
    what, and what the service does on degenerate input.

    Python values are modelled as follows.
    - [str] is [string]; one [ascii] stands for one code point below 256.
    - [int] is [Z]; [len] of a list is [Z.of_nat (length _)].
    - [float] is a binary64 number, [spec_float] of the Standard Library
      with precision 53 and maximal exponent 1024.
    - An exception is a value of [exn]; a computation that may raise and
      that reads or writes the process state is a state-and-error monad
      [M] over [World]. *)

From Stdlib Require Import ZArith List String Ascii Bool Lia.
From Stdlib Require Import Floats.SpecFloat.
From stdpp Require Import base option list gmap.

Import ListNotations.
Local Open Scope string_scope.
Local Open Scope list_scope.
Local Open Scope Z_scope.

(** ** Python text primitives *)

Module Py.

(** [str.isspace] on one character, on the code points below 256:
    TAB, LF, VT, FF, CR, the separators FS GS RS US, SPACE, NEL (0x85) and
    the no-break space (0xA0). *)
Definition isspace (c : ascii) : bool :=
  let n := Z.of_N (N_of_ascii c) in
  ((9 <=? n) && (n <=? 13)) || ((28 <=? n) && (n <=? 32))
  || (n =? 133) || (n =? 160).

(** A word under construction is kept in reverse; [flush] closes it. *)
Definition flush (cur : list ascii) (ws : list string) : list string :=
  match cur with
  | [] => ws
  | _ :: _ => string_of_list_ascii (rev cur) :: ws
  end.

(** [split_from cur s]: the scan of [str.split()] with no separator, left to
    right over [s], [cur] being the characters of the word being read.  Runs
    of whitespace separate words and produce no empty word. *)
Fixpoint split_from (cur : list ascii) (s : string) : list string :=
  match s with
  | EmptyString => flush cur []
  | String c s' =>
      if isspace c then flush cur (split_from [] s')
      else split_from (c :: cur) s'
  end.

(** [text.split()] *)
Definition split (text : string) : list string := split_from [] text.

(** [" ".join(ws)] is [join " " ws]. *)
Definition join (sep : string) (ws : list string) : string :=
  String.concat sep ws.

(** [len(xs)] *)
Definition len {A} (xs : list A) : Z := Z.of_nat (length xs).

(** [range(start, stop, step)] as the list it iterates over, for a step
    that is not zero (on a zero step Python raises [ValueError], which the
    callers below make explicit). *)
Definition range_count (start stop step : Z) : Z :=
  if 0 <? step then Z.max 0 ((stop - start + step - 1) / step)
  else Z.max 0 ((start - stop - step - 1) / (- step)).

Definition range (start stop step : Z) : list Z :=
  map (fun k => start + Z.of_nat k * step)
      (seq 0 (Z.to_nat (range_count start stop step))).

(** The slice [xs[i:j]] for indices [0 <= i], [0 <= j]; bounds past the end
    are clamped, as in Python. *)
Definition slice {A} (xs : list A) (i j : Z) : list A :=
  take (Z.to_nat (j - i)) (drop (Z.to_nat i) xs).

(** *** Exceptions and outcomes *)

(** The exceptions that the modelled code can see.  [ModelError] stands for
    whatever the tokenizer, [model.generate] or [decode] raise. *)
Inductive exn : Type :=
  | HTTPException (status_code : Z) (detail : string)
  | RequestValidationError (field : string)
  | ModelError (message : string)
  | ValueError (message : string)
  | ZeroDivisionError
  | OverflowError.

Inductive outcome (A : Type) : Type :=
  | Returned (a : A)
  | Raised (e : exn).
Arguments Returned {A} a.
Arguments Raised {A} e.

(** *** Numbers *)

Definition prec : Z := 53.
Definition emax : Z := 1024.

(** A Python number as the service produces them: an [int] or a [float]. *)
Inductive number : Type :=
  | PyInt (n : Z)
  | PyFloat (x : spec_float).

(** [a / b] on two [int]s: the quotient correctly rounded to binary64,
    [ZeroDivisionError] on a zero divisor, [OverflowError] when the
    quotient is too large for a float. *)
Definition int_truediv (a b : Z) : outcome spec_float :=
  match b with
  | 0 => Raised ZeroDivisionError
  | _ =>
      match a with
      | 0 => Returned (S754_zero (b <? 0))
      | _ =>
          match SFdiv prec emax
                  (S754_finite (a <? 0) (Z.to_pos (Z.abs a)) 0)
                  (S754_finite (b <? 0) (Z.to_pos (Z.abs b)) 0) with
          | S754_infinity _ => Raised OverflowError
          | q => Returned q
          end
      end
  end.

(** [x - y] on two [float]s. *)
Definition float_sub (x y : spec_float) : spec_float := SFsub prec emax x y.

(** The integer nearest to [num / den] for [0 <= num], [0 < den], ties going
    to the even neighbour. *)
Definition div_half_even (num den : Z) : Z :=
  let q := num / den in
  match 2 * (num mod den) ?= den with
  | Lt => q
  | Gt => q + 1
  | Eq => if Z.even q then q else q + 1
  end.

(** [round(x, ndigits)] on a [float], for [ndigits >= 0]: the exact value
    of [x] is rounded to [ndigits] decimals, ties to even, and the decimal
    obtained is converted back to the nearest binary64 number.  Infinities
    and NaN round to themselves. *)
Definition float_round (x : spec_float) (ndigits : N) : spec_float :=
  match x with
  | S754_finite s m e =>
      let p := 10 ^ Z.of_N ndigits in
      let k := if 0 <=? e then Z.pos m * 2 ^ e * p
               else div_half_even (Z.pos m * p) (2 ^ (- e)) in
      match k with
      | Z.pos k' =>
          SFdiv prec emax (S754_finite s k' 0)
                          (S754_finite false (Z.to_pos p) 0)
      | _ => S754_zero s
      end
  | _ => x
  end.

(** [round(v, ndigits)] for [ndigits >= 0]: an [int] is returned as it is. *)
Definition round (v : number) (ndigits : N) : number :=
  match v with
  | PyInt n => PyInt n
  | PyFloat x => PyFloat (float_round x ndigits)
  end.

(** A float that is neither an infinity nor NaN, and is not negative. *)
Definition finite_nonneg (v : number) : bool :=
  match v with
  | PyInt n => 0 <=? n
  | PyFloat (S754_zero false) => true
  | PyFloat (S754_finite false _ _) => true
  | PyFloat _ => false
  end.

End Py.
Export Py (exn (..), outcome (..), number (..)).


(** ** Data model *)

(** One invocation of [generate_summary], as the caller wrote it. *)
Record GenCall : Type := mkGenCall {
  call_text : string;
  call_max_length : Z;
  call_min_length : Z;
}.

(** The dictionary returned by [generate_summary]. *)
Record SummaryDict : Type := mkSummaryDict {
  summary_text : string;
  generation_time : number;
  original_length : Z;
  summary_length : Z;
  compression_ratio : number;
}.

(** A row of [documents] (the columns the service reads); the primary key
    [id] is the key of the table. *)
Record Document : Type := mkDocument {
  doc_owner_id : Z;
  doc_filename : string;
  extracted_text : option string;
}.

(** A row of [summaries] (the columns [create_summary] writes, and
    [model_name], which takes its default). *)
Record Summary : Type := mkSummary {
  sum_document_id : Z;
  sum_owner_id : Z;
  sum_summary_text : string;
  sum_word_count : Z;
  sum_compression_ratio : number;
  sum_generation_time : number;
  sum_max_length : Z;
  sum_min_length : Z;
  sum_model_name : string;
}.

(** The body of a POST to [/summaries/generate]. *)
Record SummaryCreate : Type := mkSummaryCreate {
  document_id : Z;
  max_length : Z;
  min_length : Z;
}.

(** What lies outside the repository: the pretrained model and the clock.
    - [from_pretrained]: [None] when the tokenizer and the model load,
      [Some msg] when loading raises an exception whose text is [msg];
    - [bart_generate text max_length min_length]: tokenizer, beam search
      with the fixed hyperparameters and decoding, as one function of the
      three things the caller chooses;
    - [time_time n]: the [n]-th reading of [time.time()];
    - [str_exn e]: [str(e)]. *)
Record Env : Type := mkEnv {
  from_pretrained : option string;
  bart_generate : string -> Z -> Z -> outcome string;
  time_time : nat -> spec_float;
  str_exn : exn -> string;
}.

(** The state of the process and of the database.  [gen_calls] is a ghost
    log of the invocations of [generate_summary], oldest first;
    [model_loaded] is the module-level cache [_model], [_tokenizer]. *)
Record World : Type := mkWorld {
  gen_calls : list GenCall;
  model_loaded : bool;
  clock_reads : nat;
  documents : gmap Z Document;
  summaries : gmap Z Summary;
}.

(** ** The monad of the service: state, and exceptions that keep the state *)

Definition M (A : Type) : Type := World -> outcome A * World.

Definition ret {A} (a : A) : M A := fun w => (Returned a, w).

Definition raise {A} (e : exn) : M A := fun w => (Raised e, w).

Definition bind {A B} (m : M A) (k : A -> M B) : M B :=
  fun w =>
    match m w with
    | (Returned a, w') => k a w'
    | (Raised e, w') => (Raised e, w')
    end.

(** [try: m except Exception as e: h e] *)
Definition try_except {A} (m : M A) (h : exn -> M A) : M A :=
  fun w =>
    match m w with
    | (Returned a, w') => (Returned a, w')
    | (Raised e, w') => h e w'
    end.

Definition lift {A} (o : outcome A) : M A := fun w => (o, w).

Declare Scope py_scope.
Delimit Scope py_scope with py.
Notation "x <- m ;; k" := (bind m (fun x => k))
  (at level 100, m at next level, right associativity) : py_scope.
Notation "m ;;; k" := (bind m (fun _ => k))
  (at level 100, right associativity) : py_scope.
Local Open Scope py_scope.

(** [for x in xs: ys.append(f(x))], the list [ys] being the result. *)
Fixpoint for_each {A B} (f : A -> M B) (xs : list A) : M (list B) :=
  match xs with
  | [] => ret []
  | x :: xs' => y <- f x ;; ys <- for_each f xs' ;; ret (y :: ys)
  end.

Definition log_call (c : GenCall) : M unit := fun w =>
  (Returned tt,
   mkWorld (gen_calls w ++ [c]) (model_loaded w) (clock_reads w)
           (documents w) (summaries w)).

Definition set_model_loaded : M unit := fun w =>
  (Returned tt,
   mkWorld (gen_calls w) true (clock_reads w) (documents w) (summaries w)).

Definition get_world : M World := fun w => (Returned w, w).

(** The key that the database gives to a new row: one more than the
    largest key in the table. *)
Definition next_id {A} (table : gmap Z A) : Z :=
  1 + foldr Z.max 0 (elements (dom table)).

(** [db.add(row); db.commit(); db.refresh(row)] *)
Definition db_add_summary (row : Summary) : M (Z * Summary) := fun w =>
  let id := next_id (summaries w) in
  (Returned (id, row),
   mkWorld (gen_calls w) (model_loaded w) (clock_reads w) (documents w)
           (<[id := row]> (summaries w))).

(** ** [app/services/summarization_service.py] *)

Section Service.

Variable env : Env.

(** [time.time()] *)
Definition read_clock : M spec_float := fun w =>
  (Returned (time_time env (clock_reads w)),
   mkWorld (gen_calls w) (model_loaded w) (S (clock_reads w))
           (documents w) (summaries w)).

(** [load_model]: loads once and caches; a failure to load is turned into
    an HTTP 500. *)
Definition load_model : M unit :=
  w <- get_world ;;
  if model_loaded w then ret tt
  else
    match from_pretrained env with
    | None => set_model_loaded
    | Some msg =>
        raise (HTTPException 500 ("Failed to load AI model: " ++ msg)%string)
    end.

(** [generate_summary(text, max_length, min_length)].  The first step is
    the ghost log entry; the parameter [do_sample] is never read by the
    body and is left out. *)
Definition generate_summary (text : string) (max_length min_length : Z)
  : M SummaryDict :=
  log_call (mkGenCall text max_length min_length) ;;;
  load_model ;;;
  start_time <- read_clock ;;
  summary_text <- lift (bart_generate env text max_length min_length) ;;
  now <- read_clock ;;
  let generation_time := PyFloat (Py.float_sub now start_time) in
  let original_words := Py.len (Py.split text) in
  let summary_words := Py.len (Py.split summary_text) in
  compression_ratio <-
    (if 0 <? original_words
     then x <- lift (Py.int_truediv summary_words original_words) ;;
          ret (PyFloat x)
     else ret (PyInt 0)) ;;
  ret (mkSummaryDict summary_text
                     (Py.round generation_time 2)
                     original_words
                     summary_words
                     (Py.round compression_ratio 3)).

(** [chunk_text(text, max_chunk_size)] *)
Definition chunk_text (text : string) (max_chunk_size : Z) : M (list string) :=
  let words := Py.split text in
  if max_chunk_size =? 0
  then raise (ValueError "range() arg 3 must not be zero")
  else
    ret (map (fun i => Py.join " " (Py.slice words i (i + max_chunk_size)))
             (Py.range 0 (Py.len words) max_chunk_size)).

(** [summarize_long_text(text, max_length, min_length)] *)
Definition summarize_long_text (text : string) (max_length min_length : Z)
  : M SummaryDict :=
  let word_count := Py.len (Py.split text) in
  if word_count <=? 1000 then generate_summary text max_length min_length
  else
    chunks <- chunk_text text 800 ;;
    chunk_summaries <-
      for_each (fun chunk =>
                  result <- generate_summary chunk 200 80 ;;
                  ret (summary_text result))
               chunks ;;
    let combined_summary := Py.join " " chunk_summaries in
    final_result <- generate_summary combined_summary max_length min_length ;;
    ret final_result.

(** [not document.extracted_text]: the column is NULL or the empty string. *)
Definition text_missing (t : option string) : bool :=
  match t with
  | None => true
  | Some EmptyString => true
  | Some (String _ _) => false
  end.

(** [create_summary(db, document_id, user_id, max_length, min_length)];
    returns the new row with the key the database gave it. *)
Definition create_summary (document_id user_id max_length min_length : Z)
  : M (Z * Summary) :=
  w <- get_world ;;
  match documents w !! document_id with
  | None => raise (HTTPException 404 "Document not found")
  | Some document =>
      if negb (doc_owner_id document =? user_id)
      then raise (HTTPException 403 "Access denied")
      else if text_missing (extracted_text document)
      then raise (HTTPException 400 "Document has no extracted text")
      else
        result <- summarize_long_text (default "" (extracted_text document))
                                      max_length min_length ;;
        db_add_summary
          (mkSummary document_id user_id
                     (summary_text result)
                     (summary_length result)
                     (compression_ratio result)
                     (generation_time result)
                     max_length min_length
                     "facebook/bart-large-cnn")
  end.

End Service.

(** ** [app/schemas/summary.py] and [app/routers/summaries.py] *)

Module Schema.

(** The field constraints of [SummaryCreate]:
    [max_length] has [ge=100, le=1024], [min_length] has [ge=50, le=400]. *)
Definition validate (body : SummaryCreate) : outcome SummaryCreate :=
  if negb ((100 <=? max_length body) && (max_length body <=? 1024))
  then Raised (RequestValidationError "max_length")
  else if negb ((50 <=? min_length body) && (min_length body <=? 400))
  then Raised (RequestValidationError "min_length")
  else Returned body.

End Schema.

Module Router.

(** The handler of POST [/generate]: any exception of [create_summary],
    the HTTP errors included, is answered with an HTTP 500. *)
Definition generate_summary (env : Env) (summary_data : SummaryCreate)
    (current_user_id : Z) : M (Z * Summary) :=
  try_except
    (create_summary env (document_id summary_data) current_user_id
                    (max_length summary_data) (min_length summary_data))
    (fun e =>
       raise (HTTPException 500
                ("Failed to generate summary: " ++ str_exn env e)%string)).

(** The request as the framework runs it: the body is validated against
    the schema, then handed to the handler. *)
Definition post_generate (env : Env) (body : SummaryCreate)
    (current_user_id : Z) : M (Z * Summary) :=
  summary_data <- lift (Schema.validate body) ;;
  generate_summary env summary_data current_user_id.

End Router.

(** ** Notions used to state the properties *)

(** The number of whitespace-delimited words of a text. *)
Definition word_count (text : string) : Z := Py.len (Py.split text).

(** The least integer that is not below [a / b], by floor division. *)
Definition ceil_div (a b : Z) : Z := - ((- a) / b).

(** The calls that a run from [w] to [w'] added to the log. *)
Definition new_calls (w w' : World) : list GenCall :=
  drop (length (gen_calls w)) (gen_calls w').

(** The model is in the cache, or it loads. *)
Definition model_available (env : Env) (w : World) : Prop :=
  model_loaded w = true \/ from_pretrained env = None.

(** The model answers every request, with fewer than [2 ^ 63] words. *)
Definition model_answers (env : Env) : Prop :=
  forall (text : string) (a b : Z),
    exists s : string,
      bart_generate env text a b = Returned s /\ word_count s < 2 ^ 63.

(** The run leaves both tables of the database as they were. *)
Definition same_database (w w' : World) : Prop :=
  documents w' = documents w /\ summaries w' = summaries w.

(** The consecutive pieces of [n] elements of [l], [m] of them. *)
Definition pieces {A} (n : nat) (l : list A) (m : nat) : list (list A) :=
  map (fun k => take n (drop (k * n) l)) (seq 0 m).

(** The expression [summary_words / original_words if original_words > 0
    else 0] of [generate_summary], on its own. *)
Definition ratio_of (summary_words original_words : Z) : outcome number :=
  if 0 <? original_words
  then match Py.int_truediv summary_words original_words with
       | Returned x => Returned (PyFloat x)
       | Raised e => Raised e
       end
  else Returned (PyInt 0).

(** A word of [str.split()]: not empty, and free of whitespace. *)
Fixpoint no_space (s : string) : bool :=
  match s with
  | EmptyString => true
  | String c s' => negb (Py.isspace c) && no_space s'
  end.

Definition is_word (s : string) : Prop := s <> "" /\ no_space s = true.

(** ** Sample environments and inputs *)

Module Sample.

(** [n] copies of the word [w], separated by single spaces. *)
Definition words_text (n : nat) : string := Py.join " " (repeat "w" n).

(** A stand-in for the model that answers with the first [n] words. *)
Definition lead (n : nat) (text : string) (_ _ : Z) : outcome string :=
  Returned (Py.join " " (take n (Py.split text))).

(** A stand-in for the model that answers with its input. *)
Definition echo (text : string) (_ _ : Z) : outcome string := Returned text.

(** A clock that advances by one second at each reading. *)
Definition ticking (n : nat) : spec_float :=
  binary_normalize Py.prec Py.emax (Z.of_nat n) 0 false.

Definition describe (e : exn) : string :=
  match e with
  | HTTPException _ detail => detail
  | RequestValidationError field => field
  | ModelError message => message
  | ValueError message => message
  | ZeroDivisionError => "division by zero"
  | OverflowError => "integer division result too large for a float"
  end.

Definition lead_env : Env := mkEnv None (lead 3) ticking describe.
Definition headline_env : Env := mkEnv None (lead 1) ticking describe.
Definition echo_env : Env := mkEnv None echo ticking describe.

(** A process that has not loaded the model yet, over an empty database. *)
Definition fresh : World := mkWorld [] false 0 ∅ ∅.

(** A text of 1601 words, and one of 1001 words. *)
Definition long_text : string := words_text 1601.
Definition longish_text : string := words_text 1001.

(** One second on the sample clock. *)
Definition one_second : number :=
  PyFloat (S754_finite false 4503599627370496 (-52)).

(** A database with document 1 of user 7 (three words of text), document 2
    of user 7 (no text extracted) and document 3 of user 7 (blank text). *)
Definition library : World :=
  mkWorld [] false 0
    (<[1 := mkDocument 7 "a.txt" (Some "one two three")]>
       (<[2 := mkDocument 7 "b.pdf" None]>
          (<[3 := mkDocument 7 "c.txt" (Some "   ")]> ∅)))
    ∅.

End Sample.

(** The body of the loop over the chunks, and the log entry of one of its
    calls. *)
Abbreviation summarize_chunk env :=
  (fun chunk : string =>
     bind (generate_summary env chunk 200 80)
          (fun result => ret (summary_text result))).

Abbreviation chunk_call := (fun chunk : string => mkGenCall chunk 200 80).

(** ** The read and delete routes of [app/routers/summaries.py] *)

Module Routes.

(** The dictionary that the two listing routes return. *)
Record SummaryPage : Type := mkSummaryPage {
  page_summaries : list (Z * Summary);
  page_total : Z;
  page_skip : Z;
  page_limit : Z;
}.

(** [db.query(Summary).filter(cond)]: the rows of the table, each with its
    key, that satisfy the condition. *)
Definition query_filter (cond : Z * Summary -> bool) (table : gmap Z Summary)
  : list (Z * Summary) :=
  List.filter cond (map_to_list table).

(** [.order_by(Summary.created_at.desc())].  The column [created_at] is
    stamped by the database; [created_at id] is its value in the row of key
    [id].  Rows stamped alike stay in the order the table gave them. *)
Fixpoint insert_newest (created_at : Z -> Z) (row : Z * Summary)
    (rows : list (Z * Summary)) : list (Z * Summary) :=
  match rows with
  | [] => [row]
  | r :: rows' =>
      if created_at (fst r) <? created_at (fst row)
      then row :: r :: rows'
      else r :: insert_newest created_at row rows'
  end.

Definition order_by_newest (created_at : Z -> Z) (rows : list (Z * Summary))
  : list (Z * Summary) :=
  foldr (insert_newest created_at) [] rows.

(** [.offset(n)] and [.limit(n)], for [n >= 0]. *)
Definition offset_rows (n : Z) (rows : list (Z * Summary))
  : list (Z * Summary) :=
  drop (Z.to_nat n) rows.

Definition limit_rows (n : Z) (rows : list (Z * Summary))
  : list (Z * Summary) :=
  take (Z.to_nat n) rows.

Definition owned_by (user_id : Z) (row : Z * Summary) : bool :=
  sum_owner_id (snd row) =? user_id.


(** The handler of GET [/]. *)
Definition list_summaries (created_at : Z -> Z)
    (skip limit current_user_id : Z) : M SummaryPage :=
  w <- get_world ;;
  let owned := query_filter (owned_by current_user_id) (summaries w) in
  let page :=
    limit_rows limit (offset_rows skip (order_by_newest created_at owned)) in
  let total := Py.len owned in
  ret (mkSummaryPage page total skip limit).


(** The handler of GET [/{summary_id}]. *)
Definition get_summary (summary_id current_user_id : Z) : M (Z * Summary) :=
  w <- get_world ;;
  match summaries w !! summary_id with
  | None => raise (HTTPException 404 "Summary not found")
  | Some summary =>
      if negb (sum_owner_id summary =? current_user_id)
      then raise (HTTPException 403 "Access denied")
      else ret (summary_id, summary)
  end.

(** [db.delete(summary); db.commit()] *)
Definition db_delete_summary (summary_id : Z) : M unit := fun w =>
  (Returned tt,
   mkWorld (gen_calls w) (model_loaded w) (clock_reads w) (documents w)
           (delete summary_id (summaries w))).

(** The handler of DELETE [/{summary_id}]. *)
Definition delete_summary (summary_id current_user_id : Z) : M unit :=
  w <- get_world ;;
  match summaries w !! summary_id with
  | None => raise (HTTPException 404 "Summary not found")
  | Some summary =>
      if negb (sum_owner_id summary =? current_user_id)
      then raise (HTTPException 403 "Access denied")
      else db_delete_summary summary_id
  end.

(** The handler of GET [/document/{document_id}]. *)
Definition get_document_summaries (created_at : Z -> Z)
    (document_id current_user_id : Z) : M SummaryPage :=
  w <- get_world ;;
  let page :=
    order_by_newest created_at
      (query_filter
         (fun row => (sum_document_id (snd row) =? document_id)
                     && (sum_owner_id (snd row) =? current_user_id))
         (summaries w)) in
  ret (mkSummaryPage page (Py.len page) 0 (Py.len page)).

End Routes.

(** ** [app/services/document_service.py]: reading and deleting a document *)

Module DocumentService.

(** [get_document_by_id(db, document_id, user_id)] *)
Definition get_document_by_id (document_id user_id : Z) : M (Z * Document) :=
  w <- get_world ;;
  match documents w !! document_id with
  | None => raise (HTTPException 404 "Document not found")
  | Some document =>
      if negb (doc_owner_id document =? user_id)
      then raise (HTTPException 403 "Access denied")
      else ret (document_id, document)
  end.

(** [db.delete(document); db.commit()].  The relationship
    [Document.summaries] has [cascade="all, delete-orphan"]: the summaries
    of the document are deleted with it. *)
Definition db_delete_document (document_id : Z) : M unit := fun w =>
  (Returned tt,
   mkWorld (gen_calls w) (model_loaded w) (clock_reads w)
           (delete document_id (documents w))
           (filter (fun row => sum_document_id (snd row) <> document_id)
                   (summaries w))).

(** [delete_document(db, document_id, user_id)].  The file of the document
    lies outside the state; [delete_file] never raises and its result is
    not read. *)
Definition delete_document (document_id user_id : Z) : M bool :=
  document <- get_document_by_id document_id user_id ;;
  db_delete_document document_id ;;;
  ret true.

End DocumentService.

(** ** Notions for the database *)

(** Every summary is the summary of a document of the table, and belongs
    to the owner of that document. *)
Definition db_consistent (w : World) : Prop :=
  forall (id : Z) (s : Summary),
    summaries w !! id = Some s ->
    exists d : Document,
      documents w !! sum_document_id s = Some d
      /\ doc_owner_id d = sum_owner_id s.

(** The rows come newest first. *)
Fixpoint newest_first (created_at : Z -> Z) (rows : list (Z * Summary))
  : Prop :=
  match rows with
  | [] => True
  | r :: rows' =>
      Forall (fun r' => created_at (fst r') <= created_at (fst r)) rows'
      /\ newest_first created_at rows'
  end.

(** The environment [env] with another answer for the loading of the
    model. *)
Definition with_loader (env : Env) (loader : option string) : Env :=
  mkEnv loader (bart_generate env) (time_time env) (str_exn env).

(** ** More sample environments *)

Module Scenario.

(** A stand-in for the model that fails on a text of one word and answers
    with the first three words otherwise. *)
Definition fragile (text : string) (a b : Z) : outcome string :=
  if word_count text =? 1 then Raised (ModelError "CUDA out of memory")
  else Sample.lead 3 text a b.

Definition fragile_env : Env :=
  mkEnv None fragile Sample.ticking Sample.describe.

(** An environment in which the model does not load. *)
Definition offline_env : Env :=
  mkEnv (Some "no such file") (Sample.lead 3) Sample.ticking Sample.describe.

(** A text of 800 words. *)
Definition full_chunk : string := Sample.words_text 800.

(** A summary of document [doc] for user [user]. *)
Definition note (doc user : Z) (text : string) : Summary :=
  mkSummary doc user text (word_count text) (PyInt 0) Sample.one_second
            400 150 "facebook/bart-large-cnn".

(** A database with two documents, document 1 of user 7 and document 4 of
    user 8, and three summaries: rows 1 and 2 for document 1, row 3 for
    document 4. *)
Definition archive : World :=
  mkWorld [] true 0
    (<[1 := mkDocument 7 "a.txt" (Some "one two three")]>
       (<[4 := mkDocument 8 "d.txt" (Some "four five")]> ∅))
    (<[1 := note 1 7 "one"]>
       (<[2 := note 1 7 "one two"]>
          (<[3 := note 4 8 "four"]> ∅))).

(** The time stamp of the row of key [id]: the later the key, the later
    the stamp. *)
Definition stamp (id : Z) : Z := 1000 + 10 * id.

End Scenario.

(** ** Tactics for runs of [generate_summary] *)

Ltac unfold_run :=
  unfold generate_summary, bind, log_call, load_model, get_world, read_clock,
    set_model_loaded, lift, raise, ret, same_database, ratio_of, word_count
    in *.

Ltac split_run H :=
  repeat match type of H with
         | context [model_loaded ?w] => destruct (model_loaded w) eqn:?
         | context [from_pretrained ?e] => destruct (from_pretrained e) eqn:?
         | context [bart_generate ?e ?t ?a ?b] =>
             destruct (bart_generate e t a b) eqn:?
         | context [0 <? ?n] => destruct (0 <? n) eqn:?
         | context [Py.int_truediv ?a ?b] => destruct (Py.int_truediv a b) eqn:?
         end;
  cbn in H; inversion H; subst; clear H; cbn.

(** * Properties *)

(** ** Facts about the text primitives *)

Section TextFacts.

Lemma flush_cons (c : ascii) (cur : list ascii) (ws : list string) :
  Py.flush (c :: cur) ws = string_of_list_ascii (rev (c :: cur)) :: ws.
Proof. reflexivity. Qed.

Lemma no_space_list (l : list ascii) :
  no_space (string_of_list_ascii l) = forallb (fun c => negb (Py.isspace c)) l.
Proof. induction l as [|c l IH]; simpl; [reflexivity | now rewrite IH]. Qed.

Lemma string_of_list_nonempty (l : list ascii) :
  l <> [] -> string_of_list_ascii l <> "".
Proof. destruct l; [congruence | discriminate]. Qed.

(** Every word that the scan emits is a word, provided the word under
    construction is free of whitespace. *)
Lemma split_from_words (s : string) :
  forall cur, forallb (fun c => negb (Py.isspace c)) cur = true ->
              Forall is_word (Py.split_from cur s).
Proof.
  induction s as [|c s IH]; intros cur Hcur; simpl.
  - destruct cur as [|a cur]; simpl; [constructor|].
    constructor; [|constructor]. split.
    + apply string_of_list_nonempty. destruct (rev cur); discriminate.
    + rewrite no_space_list. change (rev cur ++ [a]) with (rev (a :: cur)).
      rewrite forallb_forall in *. intros x Hx. apply Hcur.
      now apply in_rev.
  - destruct (Py.isspace c) eqn:Hc.
    + destruct cur as [|a cur]; simpl; [now apply IH|].
      constructor; [|now apply IH]. split.
      * apply string_of_list_nonempty. destruct (rev cur); discriminate.
      * rewrite no_space_list. change (rev cur ++ [a]) with (rev (a :: cur)).
        rewrite forallb_forall in *. intros x Hx. apply Hcur.
        now apply in_rev.
    + apply IH. simpl. now rewrite Hc, Hcur.
Qed.

Lemma split_words (text : string) : Forall is_word (Py.split text).
Proof. now apply split_from_words. Qed.

Lemma append_empty_r (u : string) : (u ++ "")%string = u.
Proof.
  induction u as [|c u IH]; [reflexivity|].
  change (String c (u ++ "")%string = String c u). now f_equal.
Qed.

(** Reading a stretch free of whitespace only grows the current word. *)
Lemma split_from_no_space (u : string) :
  forall cur s, no_space u = true ->
    Py.split_from cur (u ++ s)%string
    = Py.split_from (rev (list_ascii_of_string u) ++ cur) s.
Proof.
  induction u as [|c u IH]; intros cur s Hu; [reflexivity|].
  simpl in Hu. apply andb_true_iff in Hu as [Hc Hu].
  apply negb_true_iff in Hc.
  change (Py.split_from cur (String c (u ++ s)%string)
          = Py.split_from (rev (c :: list_ascii_of_string u) ++ cur) s).
  cbn [Py.split_from rev]. rewrite Hc, IH by assumption.
  now rewrite <- app_assoc.
Qed.

Lemma flush_word (u : string) (ws : list string) :
  u <> "" -> Py.flush (rev (list_ascii_of_string u)) ws = u :: ws.
Proof.
  intros Hu. unfold Py.flush.
  destruct (rev (list_ascii_of_string u)) as [|a l] eqn:E.
  - destruct u; [congruence|]. simpl in E.
    destruct (rev (list_ascii_of_string u)); discriminate.
  - now rewrite <- E, rev_involutive, string_of_list_ascii_of_string.
Qed.

(** Splitting what [join] built from words gives the words back. *)
Lemma split_join (ws : list string) :
  Forall is_word ws -> Py.split (Py.join " " ws) = ws.
Proof.
  unfold Py.split, Py.join.
  induction 1 as [|u ws [Hne Hns] Hws IH]; [reflexivity|].
  destruct ws as [|v ws].
  - change (String.concat " " [u]) with u.
    transitivity (Py.split_from [] (u ++ "")%string);
      [now rewrite append_empty_r|].
    rewrite split_from_no_space, app_nil_r by assumption. simpl.
    now apply flush_word.
  - change (String.concat " " (u :: v :: ws))
      with (u ++ String " " (String.concat " " (v :: ws)))%string.
    rewrite split_from_no_space, app_nil_r by assumption.
    cbn [Py.split_from]. change (Py.isspace " ") with true. cbn iota.
    rewrite IH. now apply flush_word.
Qed.

End TextFacts.

(** ** Facts about ranges, slices and chunks *)

Section ChunkFacts.

Lemma ceil_div_spec (a b : Z) :
  0 < b -> b * (ceil_div a b - 1) < a <= b * ceil_div a b.
Proof.
  intros Hb. unfold ceil_div.
  pose proof (Z.div_mod (- a) b ltac:(lia)) as Hdm.
  pose proof (Z.mod_pos_bound (- a) b Hb) as Hm.
  nia.
Qed.

Lemma ceil_div_unique (a b q : Z) :
  0 < b -> b * (q - 1) < a <= b * q -> q = ceil_div a b.
Proof.
  intros Hb Hq. pose proof (ceil_div_spec a b Hb). nia.
Qed.

Lemma ceil_div_nonneg (a b : Z) : 0 < b -> 0 <= a -> 0 <= ceil_div a b.
Proof. intros Hb Ha. pose proof (ceil_div_spec a b Hb). nia. Qed.

Lemma range_count_ceil (stop step : Z) :
  0 < step -> 0 <= stop -> Py.range_count 0 stop step = ceil_div stop step.
Proof.
  intros Hs Hstop. unfold Py.range_count.
  destruct (Z.ltb_spec 0 step); [|lia].
  apply ceil_div_unique; [assumption|].
  replace (stop - 0 + step - 1) with (stop + step - 1) by lia.
  pose proof (Z.div_mod (stop + step - 1) step ltac:(lia)).
  pose proof (Z.mod_pos_bound (stop + step - 1) step Hs).
  assert (0 <= (stop + step - 1) / step) by (apply Z.div_pos; lia).
  rewrite Z.max_r by assumption. nia.
Qed.

Lemma pieces_concat {A} (n : nat) (l : list A) (m : nat) :
  concat (pieces n l m) = take (m * n) l.
Proof.
  unfold pieces. induction m as [|m IH]; [reflexivity|].
  rewrite seq_S, map_app, concat_app, IH. simpl.
  rewrite app_nil_r, take_take_drop. f_equal. lia.
Qed.

Lemma pieces_lookup {A} (n : nat) (l : list A) (m k : nat) :
  (k < m)%nat -> pieces n l m !! k = Some (take n (drop (k * n) l)).
Proof.
  intros Hk. unfold pieces. rewrite list_lookup_fmap, lookup_seq_lt by lia.
  reflexivity.
Qed.

Lemma pieces_length {A} (n : nat) (l : list A) (m : nat) :
  length (pieces n l m) = m.
Proof. unfold pieces. now rewrite length_map, length_seq. Qed.

(** The word lists that [chunk_text] joins are the pieces of the words. *)
Lemma range_slices {A} (words : list A) (n : Z) :
  0 < n ->
  map (fun i => Py.slice words i (i + n)) (Py.range 0 (Py.len words) n)
  = pieces (Z.to_nat n) words (Z.to_nat (ceil_div (Py.len words) n)).
Proof.
  intros Hn. unfold Py.range, pieces, Py.len.
  rewrite range_count_ceil by lia. rewrite map_map.
  apply map_ext. intros k. unfold Py.slice.
  replace (0 + Z.of_nat k * n + n - (0 + Z.of_nat k * n)) with n by lia.
  f_equal. f_equal. lia.
Qed.

Lemma Forall_take_drop {A} (P : A -> Prop) (l : list A) (i n : nat) :
  Forall P l -> Forall P (take n (drop i l)).
Proof. intros H. now apply Forall_take, Forall_drop. Qed.

End ChunkFacts.

(** ** [chunk_text] *)

Section ChunkText.

(** What [chunk_text] returns, for a chunk size that is not zero. *)
Lemma chunk_text_run (text : string) (n : Z) (w : World) :
  n <> 0 ->
  chunk_text text n w
  = (Returned (map (fun i => Py.join " " (Py.slice (Py.split text) i (i + n)))
                   (Py.range 0 (Py.len (Py.split text)) n)), w).
Proof.
  intros Hn. unfold chunk_text. now destruct (Z.eqb_spec n 0).
Qed.

Lemma chunk_text_pieces (text : string) (n : Z) :
  0 < n ->
  map (fun i => Py.join " " (Py.slice (Py.split text) i (i + n)))
      (Py.range 0 (Py.len (Py.split text)) n)
  = map (Py.join " ")
        (pieces (Z.to_nat n) (Py.split text)
                (Z.to_nat (ceil_div (word_count text) n))).
Proof.
  intros Hn. unfold word_count. rewrite <- range_slices by assumption.
  now rewrite map_map.
Qed.

Lemma split_joined_pieces (words : list string) (n m : nat) :
  Forall is_word words ->
  map Py.split (map (Py.join " ") (pieces n words m)) = pieces n words m.
Proof.
  intros Hw. rewrite map_map. unfold pieces. rewrite map_map.
  apply map_ext. intros k. apply split_join. now apply Forall_take_drop.
Qed.

(** The chunks of a text, for a chunk size above zero: how many there are,
    what the words of each are, and that together they are the words of the
    text. *)
Lemma chunk_text_spec (text : string) (max_chunk_size : Z) (w : World) :
  0 < max_chunk_size ->
  exists chunks : list string,
    chunk_text text max_chunk_size w = (Returned chunks, w)
    /\ Py.len chunks = ceil_div (word_count text) max_chunk_size
    /\ (forall (k : nat) (chunk : string),
          chunks !! k = Some chunk ->
          Py.split chunk
          = Py.slice (Py.split text) (Z.of_nat k * max_chunk_size)
                     (Z.of_nat k * max_chunk_size + max_chunk_size)
          /\ 0 < word_count chunk <= max_chunk_size
          /\ ((S k < length chunks)%nat -> word_count chunk = max_chunk_size))
    /\ concat (map Py.split chunks) = Py.split text.
Proof.
  intros Hn.
  pose proof (split_words text) as Hwords.
  pose proof (ceil_div_spec (word_count text) max_chunk_size Hn) as Hceil.
  assert (0 <= word_count text) as Hwc by (unfold word_count, Py.len; lia).
  pose proof (ceil_div_nonneg _ _ Hn Hwc) as Hm0.
  set (n := Z.to_nat max_chunk_size).
  set (m := Z.to_nat (ceil_div (word_count text) max_chunk_size)).
  exists (map (Py.join " ") (pieces n (Py.split text) m)).
  split; [|split; [|split]].
  - rewrite chunk_text_run by lia. now rewrite chunk_text_pieces.
  - unfold Py.len. rewrite length_map, pieces_length. lia.
  - intros k chunk Hk.
    rewrite list_lookup_fmap in Hk.
    destruct (pieces n (Py.split text) m !! k) as [piece|] eqn:Hp;
      [|discriminate].
    injection Hk as <-.
    assert (k < m)%nat as Hkm.
    { apply lookup_lt_Some in Hp. now rewrite pieces_length in Hp. }
    rewrite pieces_lookup in Hp by assumption. injection Hp as <-.
    assert (Py.split (Py.join " " (take n (drop (k * n) (Py.split text))))
            = take n (drop (k * n) (Py.split text))) as Hsplit
      by (apply split_join; now apply Forall_take_drop).
    unfold word_count in *. rewrite Hsplit. unfold Py.len in *.
    rewrite length_take, length_drop.
    split; [|split].
    + unfold Py.slice. f_equal; [lia|]. f_equal. lia.
    + nia.
    + rewrite length_map, pieces_length. intros Hlast. nia.
  - rewrite split_joined_pieces by assumption.
    rewrite pieces_concat. apply take_ge.
    unfold word_count, Py.len in *. nia.
Qed.

(** C2. For every text and every chunk size above zero, [chunk_text]
    returns, without touching the state, [ceil (words / size)] chunks; the
    words of the [k]-th chunk are the slice [k*size, k*size + size) of the
    words of the text, so the chunks are in order and do not overlap; no
    chunk is empty or longer than the size, and every chunk but the last has
    exactly [size] words; the words of the chunks, put end to end, are the
    words of the text. *)
Theorem chunk_text_partitions (text : string) (max_chunk_size : Z) (w : World) :
  0 < max_chunk_size ->
  exists chunks : list string,
    chunk_text text max_chunk_size w = (Returned chunks, w)
    /\ Py.len chunks = ceil_div (word_count text) max_chunk_size
    /\ (forall (k : nat) (chunk : string),
          chunks !! k = Some chunk ->
          Py.split chunk
          = Py.slice (Py.split text) (Z.of_nat k * max_chunk_size)
                     (Z.of_nat k * max_chunk_size + max_chunk_size)
          /\ 0 < word_count chunk <= max_chunk_size
          /\ ((S k < length chunks)%nat -> word_count chunk = max_chunk_size))
    /\ concat (map Py.split chunks) = Py.split text.
Proof. apply chunk_text_spec. Qed.

End ChunkText.

(** ** Runs of the service *)

Section MonadFacts.

Context {A B : Type}.

Lemma bind_run (m : M A) (k : A -> M B) (w : World) :
  bind m k w
  = match m w with
    | (Returned a, w') => k a w'
    | (Raised e, w') => (Raised e, w')
    end.
Proof. reflexivity. Qed.

Lemma bind_ret_run (m : M A) (f : A -> B) (w : World) :
  bind m (fun a => ret (f a)) w
  = match m w with
    | (Returned a, w') => (Returned (f a), w')
    | (Raised e, w') => (Raised e, w')
    end.
Proof. reflexivity. Qed.

Lemma for_each_cons (f : A -> M B) (x : A) (xs : list A) (w : World) :
  for_each f (x :: xs) w
  = match f x w with
    | (Returned y, w1) =>
        match for_each f xs w1 with
        | (Returned ys, w2) => (Returned (y :: ys), w2)
        | (Raised e, w2) => (Raised e, w2)
        end
    | (Raised e, w1) => (Raised e, w1)
    end.
Proof. reflexivity. Qed.

End MonadFacts.

Section Runs.

Variable env : Env.

Lemma new_calls_app (w w' : World) (cs : list GenCall) :
  gen_calls w' = gen_calls w ++ cs -> new_calls w w' = cs.
Proof. intros H. unfold new_calls. now rewrite H, drop_app_length. Qed.

(** One call of [generate_summary] adds itself to the log, whatever happens
    next, and leaves the database alone. *)
Lemma generate_summary_effect (text : string) (a b : Z) (w : World)
    (o : outcome SummaryDict) (w' : World) :
  generate_summary env text a b w = (o, w') ->
  gen_calls w' = gen_calls w ++ [mkGenCall text a b] /\ same_database w w'.
Proof.
  intros H. unfold_run. cbn in H. split_run H; auto.
Qed.

(** What a call of [generate_summary] returns is made of the answer of the
    model, of two readings of the clock and of the two word counts. *)
Lemma generate_summary_result (text : string) (a b : Z) (w : World)
    (r : SummaryDict) (w' : World) :
  generate_summary env text a b w = (Returned r, w') ->
  bart_generate env text a b = Returned (summary_text r)
  /\ original_length r = word_count text
  /\ summary_length r = word_count (summary_text r)
  /\ (exists x, ratio_of (summary_length r) (original_length r) = Returned x
               /\ compression_ratio r = Py.round x 3)
  /\ generation_time r
     = Py.round (PyFloat (Py.float_sub (time_time env (S (clock_reads w)))
                                       (time_time env (clock_reads w)))) 2.
Proof.
  intros H. unfold_run. cbn in H. split_run H;
    repeat split; try reflexivity;
    match goal with
    | Hlt : (0 <? _) = _ |- _ => rewrite Hlt
    end;
    try match goal with
    | Hd : Py.int_truediv _ _ = _ |- _ => rewrite Hd
    end; eauto.
Qed.

(** The loop over the chunks.  If it completes, it has called the model on
    every chunk, in order, and collected the answers in the same order; if
    it stops on an exception, it has called the model on an initial
    stretch of the chunks only. *)
Lemma chunk_phase (chunks : list string) :
  forall (w : World) (o : outcome (list string)) (w' : World),
    for_each (summarize_chunk env) chunks w = (o, w') ->
    same_database w w'
    /\ match o with
       | Returned sums =>
           gen_calls w' = gen_calls w ++ map chunk_call chunks
           /\ Forall2 (fun chunk s =>
                         bart_generate env chunk 200 80 = Returned s)
                      chunks sums
       | Raised _ =>
           exists k : nat,
             (k < length chunks)%nat
             /\ gen_calls w'
                = gen_calls w ++ map chunk_call (take (S k) chunks)
       end.
Proof.
  induction chunks as [|c cs IH]; intros w o w' H.
  - cbn in H. inversion H; subst. unfold same_database.
    rewrite app_nil_r. repeat split; constructor.
  - rewrite for_each_cons in H. cbv beta in H. rewrite bind_ret_run in H.
    destruct (generate_summary env c 200 80 w) as [o1 w1] eqn:Hg.
    destruct (generate_summary_effect _ _ _ _ _ _ Hg) as [Hlog [Hd Hs]].
    destruct o1 as [r|e].
    + apply generate_summary_result in Hg as [Hb _].
      destruct (for_each (summarize_chunk env) cs w1) as [o2 w2] eqn:Hf.
      apply IH in Hf as [[Hd2 Hs2] Hrest].
      destruct o2 as [sums|e0]; injection H as <- <-.
      * destruct Hrest as [Hlog2 Hall]. unfold same_database.
        rewrite Hlog2, Hlog, <- app_assoc. cbn.
        repeat split; try congruence. now constructor.
      * destruct Hrest as [k [Hk Hlog2]]. unfold same_database.
        split; [split; congruence|].
        exists (S k). split; [cbn; lia|].
        rewrite Hlog2, Hlog, <- app_assoc. reflexivity.
    + injection H as <- <-. unfold same_database.
      split; [split; congruence|].
      exists 0%nat. split; [cbn; lia|]. now rewrite Hlog.
Qed.

(** Every run of [summarize_long_text] on a text of more than 1000 words:
    either an exception stopped it among the chunks, or it went through
    all the chunks and its outcome is the outcome of one call of
    [generate_summary] on the joined answers. *)
Lemma long_path_run (text : string) (mx mn : Z) (w : World)
    (o : outcome SummaryDict) (w' : World) :
  1000 < word_count text ->
  summarize_long_text env text mx mn w = (o, w') ->
  exists chunks : list string,
    chunk_text text 800 w = (Returned chunks, w)
    /\ same_database w w'
    /\ ((exists (e : exn) (k : nat),
           o = Raised e /\ (k < length chunks)%nat
           /\ new_calls w w' = map chunk_call (take (S k) chunks))
        \/ (exists (sums : list string) (w1 : World),
              Forall2 (fun chunk s =>
                         bart_generate env chunk 200 80 = Returned s)
                      chunks sums
              /\ gen_calls w1 = gen_calls w ++ map chunk_call chunks
              /\ generate_summary env (Py.join " " sums) mx mn w1 = (o, w')
              /\ new_calls w w'
                 = map chunk_call chunks
                   ++ [mkGenCall (Py.join " " sums) mx mn])).
Proof.
  intros Hlong H. unfold summarize_long_text in H.
  fold (word_count text) in H.
  destruct (Z.leb_spec (word_count text) 1000); [lia|].
  destruct (chunk_text_spec text 800 w ltac:(lia)) as [chunks [Hc _]].
  exists chunks. split; [assumption|].
  rewrite bind_run, Hc, bind_run in H.
  destruct (for_each (summarize_chunk env) chunks w) as [o1 w1] eqn:Hf.
  apply chunk_phase in Hf as [[Hd1 Hs1] Hrest].
  destruct o1 as [sums|e].
  - destruct Hrest as [Hlog Hall]. rewrite bind_run in H.
    destruct (generate_summary env (Py.join " " sums) mx mn w1)
      as [o2 w2] eqn:Hg.
    destruct (generate_summary_effect _ _ _ _ _ _ Hg) as [Hlog2 [Hd2 Hs2]].
    assert (o2 = o /\ w2 = w') as [-> ->]
      by (destruct o2; cbn in H; inversion H; auto).
    split; [split; congruence|].
    right. exists sums, w1. repeat split; try assumption.
    apply new_calls_app. now rewrite Hlog2, Hlog, <- app_assoc.
  - inversion H; subst; clear H. split; [split; assumption|].
    left. destruct Hrest as [k [Hk Hlog]].
    exists e, k. repeat split; try assumption. now apply new_calls_app.
Qed.

(** A text of at most 1000 words goes to [generate_summary] as it is. *)
Lemma short_path_run (text : string) (mx mn : Z) (w : World) :
  word_count text <= 1000 ->
  summarize_long_text env text mx mn w = generate_summary env text mx mn w.
Proof.
  intros Hshort. unfold summarize_long_text. fold (word_count text).
  now destruct (Z.leb_spec (word_count text) 1000); [|lia].
Qed.

(** The chunks of a text of 1601 words: 800, 800 and 1 words. *)
Lemma chunks_of_1601 (text : string) (w : World) :
  word_count text = 1601 ->
  exists c1 c2 c3 : string,
    chunk_text text 800 w = (Returned [c1; c2; c3], w)
    /\ map word_count [c1; c2; c3] = [800; 800; 1].
Proof.
  intros Hwc.
  destruct (chunk_text_spec text 800 w ltac:(lia))
    as [chunks [Hc [Hlen [Hk _]]]].
  rewrite Hwc in Hlen. change (ceil_div 1601 800) with 3 in Hlen.
  unfold Py.len in Hlen.
  destruct chunks as [|c1 [|c2 [|c3 [|c4 chunks]]]]; cbn in Hlen; try lia.
  exists c1, c2, c3. split; [assumption|].
  destruct (Hk 0%nat c1 eq_refl) as [_ [_ H1]].
  destruct (Hk 1%nat c2 eq_refl) as [_ [_ H2]].
  destruct (Hk 2%nat c3 eq_refl) as [H3 _].
  cbn [map]. rewrite H1, H2 by (cbn; lia).
  unfold word_count at 1. rewrite H3. unfold Py.slice, Py.len.
  rewrite length_take, length_drop.
  unfold word_count, Py.len in Hwc.
  repeat f_equal. lia.
Qed.

(** C1. On a text of more than 1000 words a run of [summarize_long_text]
    never calls [generate_summary] more than [ceil (words / 800) + 1]
    times, and a run that returns has called it exactly that many times:
    once per chunk and once for the reduction.  A text of 1601 words has
    the three chunks of 800, 800 and 1 words, and four calls. *)
Theorem long_text_call_count (text : string) (mx mn : Z) (w : World)
    (o : outcome SummaryDict) (w' : World) :
  1000 < word_count text ->
  summarize_long_text env text mx mn w = (o, w') ->
  Py.len (new_calls w w') <= ceil_div (word_count text) 800 + 1
  /\ (forall r, o = Returned r ->
       exists chunks,
         chunk_text text 800 w = (Returned chunks, w)
         /\ Py.len (new_calls w w') = Py.len chunks + 1
         /\ Py.len (new_calls w w') = ceil_div (word_count text) 800 + 1)
  /\ (word_count text = 1601 ->
       exists c1 c2 c3 : string,
         chunk_text text 800 w = (Returned [c1; c2; c3], w)
         /\ map word_count [c1; c2; c3] = [800; 800; 1]
         /\ forall r, o = Returned r -> Py.len (new_calls w w') = 4).
Proof.
  intros Hlong Hrun.
  destruct (long_path_run _ _ _ _ _ _ Hlong Hrun) as [chunks [Hc [_ Hcases]]].
  destruct (chunk_text_spec text 800 w ltac:(lia))
    as [chunks' [Hc' [Hlen _]]].
  assert (chunks' = chunks) as -> by congruence.
  assert (forall r, o = Returned r ->
            Py.len (new_calls w w') = Py.len chunks + 1) as Hexact.
  { intros r ->. destruct Hcases as [[e [k [Habs _]]]|[sums [w1 [_ [_ [_ Hn]]]]]];
      [discriminate|].
    rewrite Hn. unfold Py.len. rewrite length_app, length_map. cbn. lia. }
  split; [|split].
  - destruct Hcases as [[e [k [_ [Hk Hn]]]]|[sums [w1 [_ [_ [_ Hn]]]]]];
      rewrite Hn; unfold Py.len in *;
      rewrite ?length_app, length_map, ?length_take; cbn [length]; lia.
  - intros r Hr. exists chunks. split; [assumption|].
    split; [now apply (Hexact r)|]. rewrite <- Hlen. now apply (Hexact r).
  - intros H1601. destruct (chunks_of_1601 text w H1601)
      as [c1 [c2 [c3 [Hc3 Hsizes]]]].
    exists c1, c2, c3. repeat split; try assumption.
    intros r Hr. rewrite (Hexact r Hr).
    replace chunks with [c1; c2; c3] by congruence. reflexivity.
Qed.

(** C3. A run of [summarize_long_text] that returns on a text of more than
    1000 words has called [generate_summary] on each chunk, in the order of
    the chunks, with [max_length = 200] and [min_length = 80]; then once
    more, on the answers of the model joined by single spaces in the same
    order, with the lengths the caller gave; and what it returns is what
    that last call returned. *)
Theorem long_text_trace (text : string) (mx mn : Z) (w : World)
    (r : SummaryDict) (w' : World) :
  1000 < word_count text ->
  summarize_long_text env text mx mn w = (Returned r, w') ->
  exists (chunks sums : list string) (w1 : World),
    chunk_text text 800 w = (Returned chunks, w)
    /\ Forall2 (fun chunk s => bart_generate env chunk 200 80 = Returned s)
               chunks sums
    /\ new_calls w w'
       = map (fun chunk => mkGenCall chunk 200 80) chunks
         ++ [mkGenCall (Py.join " " sums) mx mn]
    /\ new_calls w w1 = map (fun chunk => mkGenCall chunk 200 80) chunks
    /\ generate_summary env (Py.join " " sums) mx mn w1 = (Returned r, w')
    /\ bart_generate env (Py.join " " sums) mx mn = Returned (summary_text r).
Proof.
  intros Hlong Hrun.
  destruct (long_path_run _ _ _ _ _ _ Hlong Hrun) as [chunks [Hc [_ Hcases]]].
  destruct Hcases as [[e [k [Habs _]]]|[sums [w1 [Hall [Hlog [Hg Hn]]]]]];
    [discriminate|].
  exists chunks, sums, w1. repeat split; try assumption.
  - now apply new_calls_app.
  - now apply generate_summary_result in Hg as [Hb _].
Qed.

(** The direct path: one call, and what it returns. *)
Lemma short_path_result (text : string) (mx mn : Z) (w : World)
    (o : outcome SummaryDict) (w' : World) :
  word_count text <= 1000 ->
  summarize_long_text env text mx mn w = (o, w') ->
  generate_summary env text mx mn w = (o, w')
  /\ new_calls w w' = [mkGenCall text mx mn]
  /\ forall r, o = Returned r ->
       bart_generate env text mx mn = Returned (summary_text r)
       /\ generation_time r
          = Py.round (PyFloat (Py.float_sub
                                 (time_time env (S (clock_reads w)))
                                 (time_time env (clock_reads w)))) 2
       /\ original_length r = word_count text
       /\ summary_length r = word_count (summary_text r)
       /\ exists x, ratio_of (summary_length r) (original_length r)
                    = Returned x
                    /\ compression_ratio r = Py.round x 3.
Proof.
  intros Hshort Hrun. rewrite short_path_run in Hrun by assumption.
  split; [assumption|]. split.
  - apply new_calls_app. now apply generate_summary_effect in Hrun.
  - intros r ->. apply generate_summary_result in Hrun.
    destruct Hrun as [Hb [Ho [Hs [Hr Ht]]]]. auto.
Qed.

(** C4. On a text of at most 1000 words the outcome of
    [summarize_long_text] is the outcome of [generate_summary] on the same
    text and lengths; that call is the only one made; and the dictionary
    returned holds the answer of the model for this text and these lengths,
    the time between the two readings of the clock rounded to two decimals,
    the two word counts and their ratio rounded to three decimals. *)
Theorem short_text_direct (text : string) (mx mn : Z) (w : World)
    (o : outcome SummaryDict) (w' : World) :
  word_count text <= 1000 ->
  summarize_long_text env text mx mn w = (o, w') ->
  generate_summary env text mx mn w = (o, w')
  /\ new_calls w w' = [mkGenCall text mx mn]
  /\ forall r, o = Returned r ->
       bart_generate env text mx mn = Returned (summary_text r)
       /\ generation_time r
          = Py.round (PyFloat (Py.float_sub
                                 (time_time env (S (clock_reads w)))
                                 (time_time env (clock_reads w)))) 2
       /\ original_length r = word_count text
       /\ summary_length r = word_count (summary_text r)
       /\ exists x, ratio_of (summary_length r) (original_length r)
                    = Returned x
                    /\ compression_ratio r = Py.round x 3.
Proof. apply short_path_result. Qed.

(** C10. On a text without any word, [summarize_long_text] takes the
    direct path: its outcome is that of [generate_summary] on the text, the
    one call made is on that text, and a dictionary returned has a
    compression ratio of 0. *)
Theorem blank_text_direct (text : string) (mx mn : Z) (w : World)
    (o : outcome SummaryDict) (w' : World) :
  word_count text = 0 ->
  summarize_long_text env text mx mn w = (o, w') ->
  generate_summary env text mx mn w = (o, w')
  /\ new_calls w w' = [mkGenCall text mx mn]
  /\ forall r, o = Returned r ->
       compression_ratio r = PyInt 0 /\ original_length r = 0.
Proof.
  intros Hblank Hrun.
  destruct (short_path_result text mx mn w o w' ltac:(lia) Hrun)
    as [Hg [Hn Hr]].
  split; [assumption|]. split; [assumption|].
  intros r Hret.
  destruct (Hr r Hret) as [_ [_ [Ho [_ [x [Hx Hc]]]]]].
  rewrite Ho, Hblank in Hx. cbn in Hx. injection Hx as <-.
  rewrite Hc. split; [reflexivity | congruence].
Qed.

End Runs.

(** ** [create_summary] and the route *)

Section Validation.

Variable env : Env.

(** The three checks of [create_summary], in the order they are made: each
    raises from the state it was entered in. *)
Lemma create_summary_checks (document_id user_id mx mn : Z) (w : World) :
  (documents w !! document_id = None ->
   create_summary env document_id user_id mx mn w
   = (Raised (HTTPException 404 "Document not found"), w))
  /\ (forall d : Document,
       documents w !! document_id = Some d ->
       doc_owner_id d <> user_id ->
       create_summary env document_id user_id mx mn w
       = (Raised (HTTPException 403 "Access denied"), w))
  /\ (forall d : Document,
       documents w !! document_id = Some d ->
       doc_owner_id d = user_id ->
       text_missing (extracted_text d) = true ->
       create_summary env document_id user_id mx mn w
       = (Raised (HTTPException 400 "Document has no extracted text"), w)).
Proof.
  unfold create_summary. rewrite bind_run. cbn [get_world].
  split; [|split].
  - intros ->. reflexivity.
  - intros d -> Hne. destruct (Z.eqb_spec (doc_owner_id d) user_id);
      [contradiction | reflexivity].
  - intros d -> Heq Hmiss. destruct (Z.eqb_spec (doc_owner_id d) user_id);
      [|contradiction]. cbn [negb]. now rewrite Hmiss.
Qed.

(** C9. A call of [create_summary] for a document that does not exist
    raises the HTTP error 404, for a document of another user the error
    403, and for a document of the user without extracted text the error
    400; in the three cases the state after the call is the state before:
    no call of [generate_summary] was logged and no row was added to
    [summaries]. *)
Theorem create_summary_rejects_early (document_id user_id mx mn : Z)
    (w : World) :
  (documents w !! document_id = None ->
   exists w',
     create_summary env document_id user_id mx mn w
     = (Raised (HTTPException 404 "Document not found"), w')
     /\ new_calls w w' = [] /\ same_database w w' /\ w' = w)
  /\ (forall d : Document,
       documents w !! document_id = Some d ->
       doc_owner_id d <> user_id ->
       exists w',
         create_summary env document_id user_id mx mn w
         = (Raised (HTTPException 403 "Access denied"), w')
         /\ new_calls w w' = [] /\ same_database w w' /\ w' = w)
  /\ (forall d : Document,
       documents w !! document_id = Some d ->
       doc_owner_id d = user_id ->
       text_missing (extracted_text d) = true ->
       exists w',
         create_summary env document_id user_id mx mn w
         = (Raised (HTTPException 400 "Document has no extracted text"), w')
         /\ new_calls w w' = [] /\ same_database w w' /\ w' = w).
Proof.
  destruct (create_summary_checks document_id user_id mx mn w)
    as [H404 [H403 H400]].
  assert (new_calls w w = []) as Hnone
    by (apply new_calls_app; now rewrite app_nil_r).
  unfold same_database.
  split; [|split].
  - intros Hd. exists w. rewrite H404 by assumption. auto.
  - intros d Hd Hne. exists w. rewrite (H403 d) by assumption. auto.
  - intros d Hd Heq Hmiss. exists w. rewrite (H400 d) by assumption. auto.
Qed.

(** The handler of the route answers every exception of [create_summary]
    with the status 500, from the state the exception left. *)
Lemma route_masks_status (summary_data : SummaryCreate) (user_id : Z)
    (w : World) (e : exn) (w' : World) :
  create_summary env (document_id summary_data) user_id
                 (max_length summary_data) (min_length summary_data) w
  = (Raised e, w') ->
  Router.generate_summary env summary_data user_id w
  = (Raised (HTTPException 500
               ("Failed to generate summary: " ++ str_exn env e)%string), w').
Proof.
  intros H. unfold Router.generate_summary, try_except. now rewrite H.
Qed.

End Validation.

(** ** Facts about binary64 rounding *)

Section FloatFacts.

Lemma fexp_64 (e : Z) : fexp Py.prec Py.emax e = Z.max (e - 53) (-1074).
Proof. reflexivity. Qed.

Lemma digits2_pos_size (p : positive) : digits2_pos p = Pos.size p.
Proof. induction p; cbn; congruence. Qed.

(** The number of binary digits of a number below [2 ^ n]. *)
Lemma Zdigits2_lt_pow (m n : Z) :
  0 <= m -> 0 <= n -> m < 2 ^ n -> Zdigits2 m <= n.
Proof.
  intros Hm Hn Hlt. destruct m as [|p|p]; cbn; [assumption| |lia].
  rewrite digits2_pos_size.
  destruct (Z.le_gt_cases (Z.pos (Pos.size p)) n) as [|Hgt]; [assumption|].
  exfalso.
  assert (2 ^ n <= Z.pos p); [|lia].
  pose proof (Pos.size_le p) as Hsz.
  assert (2 ^ Z.pos (Pos.size p) <= 2 * Z.pos p) as Hsz'.
  { rewrite <- Pos2Z.inj_pow. change (2 * Z.pos p) with (Z.pos p~0).
    now apply Pos2Z.pos_le_pos. }
  assert (2 ^ (n + 1) <= 2 ^ Z.pos (Pos.size p))
    by (apply Z.pow_le_mono_r; lia).
  rewrite Z.pow_add_r in * by lia. lia.
Qed.

Lemma Zdigits2_nonneg (m : Z) : 0 <= Zdigits2 m.
Proof. destruct m; cbn; lia. Qed.

Lemma shr_m_of_loc (m : Z) (l : location) :
  shr_m (shr_record_of_loc m l) = m.
Proof. destruct l as [|[]]; reflexivity. Qed.

Lemma shr_1_m (r : shr_record) :
  0 <= shr_m r -> shr_m (shr_1 r) = shr_m r / 2.
Proof.
  intros Hm. rewrite <- Z.div2_div.
  destruct r as [[|[p|p|]|p] ? ?]; cbn in *; try reflexivity; lia.
Qed.

Lemma iter_pos_nat {A} (f : A -> A) (p : positive) :
  forall x, SpecFloat.iter_pos f p x = Nat.iter (Pos.to_nat p) f x.
Proof.
  induction p as [p IH|p IH|]; intros x; cbn [SpecFloat.iter_pos].
  - rewrite !IH, Pos2Nat.inj_xI.
    replace (2 * Pos.to_nat p)%nat with (Pos.to_nat p + Pos.to_nat p)%nat
      by lia.
    now rewrite Nat.iter_succ_r, Nat.iter_add.
  - rewrite !IH, Pos2Nat.inj_xO.
    replace (2 * Pos.to_nat p)%nat with (Pos.to_nat p + Pos.to_nat p)%nat
      by lia.
    now rewrite Nat.iter_add.
  - reflexivity.
Qed.

Lemma iter_shr_1_m (n : nat) (r : shr_record) :
  0 <= shr_m r ->
  shr_m (Nat.iter n shr_1 r) = shr_m r / 2 ^ Z.of_nat n
  /\ 0 <= shr_m (Nat.iter n shr_1 r).
Proof.
  intros Hm. induction n as [|n [IH IH0]].
  - change (Nat.iter 0 shr_1 r) with r. change (2 ^ Z.of_nat 0) with 1.
    now rewrite Z.div_1_r.
  - rewrite Nat.iter_succ. rewrite shr_1_m by assumption. rewrite IH.
    assert (0 < 2 ^ Z.of_nat n) by (apply Z.pow_pos_nonneg; lia).
    rewrite Nat2Z.inj_succ, Z.pow_succ_r by lia.
    rewrite Z.div_div by lia.
    split; [f_equal; lia|]. apply Z.div_pos; lia.
Qed.

(** What [shr_fexp] does to a mantissa that is not negative: the exponent
    becomes the larger of the exponent given and of the canonical one, and
    the mantissa is shifted right by the difference. *)
Lemma shr_fexp_spec (m e : Z) (l : location) :
  0 <= m ->
  let e' := Z.max e (fexp Py.prec Py.emax (Zdigits2 m + e)) in
  snd (shr_fexp Py.prec Py.emax m e l) = e'
  /\ shr_m (fst (shr_fexp Py.prec Py.emax m e l)) = m / 2 ^ (e' - e).
Proof.
  intros Hm e'. unfold shr_fexp, shr. subst e'.
  set (f := fexp Py.prec Py.emax (Zdigits2 m + e)).
  destruct (f - e) as [|p|p] eqn:Hn; cbn [fst snd].
  - rewrite Z.max_l by lia. rewrite shr_m_of_loc, Z.sub_diag.
    now rewrite Z.div_1_r.
  - rewrite Z.max_r by lia. rewrite iter_pos_nat.
    destruct (iter_shr_1_m (Pos.to_nat p) (shr_record_of_loc m l)) as [-> _];
      [now rewrite shr_m_of_loc|].
    rewrite shr_m_of_loc, positive_nat_Z. split; [lia|]. now rewrite Hn.
  - rewrite Z.max_l by lia. rewrite shr_m_of_loc, Z.sub_diag.
    now rewrite Z.div_1_r.
Qed.

Lemma round_nearest_even_bounds (m : Z) (l : location) :
  m <= round_nearest_even m l <= m + 1.
Proof.
  unfold round_nearest_even. destruct l as [|[]]; try lia.
  destruct (Z.even m); lia.
Qed.

Lemma pow2_split (a b c : Z) :
  a <= b <= c -> 2 ^ (c - a) = 2 ^ (b - a) * 2 ^ (c - b).
Proof. intros H. rewrite <- Z.pow_add_r by lia. f_equal. lia. Qed.

(** Rounding a mantissa that is not negative, of a value below [2 ^ K] for
    a [K] in the range of binary64: the result is a zero or a finite number
    of the sign given, and its value is at most [2 ^ K]. *)
Lemma binary_round_aux_bounded (sx : bool) (mx ex : Z) (lx : location)
    (K : Z) :
  0 <= mx -> ex <= K -> mx < 2 ^ (K - ex) ->
  -1074 <= K <= 1023 -> ex <= 971 ->
  match binary_round_aux Py.prec Py.emax sx mx ex lx with
  | S754_zero s => s = sx
  | S754_finite s m e => s = sx /\ e <= K /\ Z.pos m <= 2 ^ (K - e)
  | _ => False
  end.
Proof.
  intros Hmx HexK Hlt HK Hex. unfold binary_round_aux.
  destruct (shr_fexp_spec mx ex lx Hmx) as [He1 Hm1].
  destruct (shr_fexp Py.prec Py.emax mx ex lx) as [mrs1 e1].
  cbn [fst snd] in He1, Hm1.
  pose proof (Zdigits2_lt_pow mx (K - ex) Hmx ltac:(lia) Hlt) as Hd.
  pose proof (Zdigits2_nonneg mx) as Hd0.
  rewrite fexp_64 in He1, Hm1.
  assert (ex <= e1 <= K /\ e1 <= 971) as [[Hee1 He1K] He1max] by lia.
  rewrite <- He1 in Hm1.
  assert (0 < 2 ^ (e1 - ex)) as Hp1 by (apply Z.pow_pos_nonneg; lia).
  assert (0 <= shr_m mrs1 < 2 ^ (K - e1)) as [Hm1lo Hm1hi].
  { rewrite Hm1. split; [apply Z.div_pos; lia|].
    apply Z.div_lt_upper_bound; [assumption|].
    now rewrite <- (pow2_split ex e1 K) by lia. }
  pose proof (round_nearest_even_bounds (shr_m mrs1) (loc_of_shr_record mrs1))
    as Hrne.
  set (m2 := round_nearest_even (shr_m mrs1) (loc_of_shr_record mrs1)) in *.
  assert (0 <= m2) as Hm2 by lia.
  destruct (shr_fexp_spec m2 e1 loc_Exact Hm2) as [He2 Hm3].
  destruct (shr_fexp Py.prec Py.emax m2 e1 loc_Exact) as [mrs2 e2].
  cbn [fst snd] in He2, Hm3.
  assert (m2 < 2 ^ (K - e1 + 1)) as Hm2hi
    by (rewrite Z.pow_add_r by lia; lia).
  pose proof (Zdigits2_lt_pow m2 (K - e1 + 1) Hm2 ltac:(lia) Hm2hi) as Hd2.
  pose proof (Zdigits2_nonneg m2) as Hd20.
  rewrite fexp_64 in He2, Hm3.
  assert (e1 <= e2 <= K /\ e2 <= 971) as [[Hee2 He2K] He2max] by lia.
  rewrite <- He2 in Hm3.
  assert (0 < 2 ^ (e2 - e1)) as Hp2 by (apply Z.pow_pos_nonneg; lia).
  assert (0 <= shr_m mrs2 <= 2 ^ (K - e2)) as [Hm3lo Hm3hi].
  { rewrite Hm3. split; [apply Z.div_pos; lia|].
    apply Z.div_le_upper_bound; [assumption|].
    rewrite <- (pow2_split e1 e2 K) by lia. lia. }
  destruct (shr_m mrs2) as [|m|m]; [reflexivity| |lia].
  change (Py.emax - Py.prec) with 971.
  destruct (Z.leb_spec e2 971); [auto | lia].
Qed.

(** The quotient of two positive integers, the first below [2 ^ K]. *)
Lemma SFdiv_int_bounded (s : bool) (a b : positive) (K : Z) :
  Z.pos a < 2 ^ K -> 0 <= K <= 1023 ->
  match SFdiv Py.prec Py.emax (S754_finite s a 0) (S754_finite false b 0) with
  | S754_zero s' => s' = s
  | S754_finite s' m e => s' = s /\ e <= K /\ Z.pos m <= 2 ^ (K - e)
  | _ => False
  end.
Proof.
  intros Ha HK. unfold SFdiv, SFdiv_core_binary.
  rewrite xorb_false_r, !Z.add_0_r, Z.sub_diag, fexp_64.
  set (e' := Z.min (Z.max (Zdigits2 (Z.pos a) - Zdigits2 (Z.pos b) - 53)
                          (-1074)) 0).
  assert (-1074 <= e' <= 0) as He' by (subst e'; lia).
  set (m' := match 0 - e' with
             | 0 => Z.pos a
             | Z.pos _ => Z.shiftl (Z.pos a) (0 - e')
             | Z.neg _ => 0
             end).
  assert (m' = Z.pos a * 2 ^ (- e')) as Hm'.
  { subst m'. destruct (0 - e') as [|p|p] eqn:Hs.
    - replace (- e') with 0 by lia. lia.
    - rewrite Z.shiftl_mul_pow2 by lia. f_equal. f_equal. lia.
    - lia. }
  clearbody m'.
  assert (0 < 2 ^ (- e')) as Hp by (apply Z.pow_pos_nonneg; lia).
  destruct (Z.div_eucl m' (Z.pos b)) as [q r] eqn:Hdiv.
  assert (q = m' / Z.pos b) as Hq by (unfold Z.div; now rewrite Hdiv).
  assert (0 <= q <= m') as [Hq0 Hqm].
  { rewrite Hq. split; [apply Z.div_pos; lia|].
    apply Z.div_le_upper_bound; nia. }
  apply binary_round_aux_bounded; try lia.
  replace (K - e') with (K + - e') by lia.
  rewrite Z.pow_add_r by lia. nia.
Qed.

(** [a / b] for [0 <= a < 2 ^ 63] and [0 < b]: no exception, and a float
    that is a zero or a finite number, not negative, at most [2 ^ 63]. *)
Lemma int_truediv_bounded (a b : Z) :
  0 <= a < 2 ^ 63 -> 0 < b ->
  exists q : spec_float,
    Py.int_truediv a b = Returned q
    /\ match q with
       | S754_zero s => s = false
       | S754_finite s m e => s = false /\ e <= 63 /\ Z.pos m <= 2 ^ (63 - e)
       | _ => False
       end.
Proof.
  intros Ha Hb. unfold Py.int_truediv.
  destruct b as [|b|b]; try lia.
  destruct a as [|a|a]; try lia.
  - exists (S754_zero false). split; reflexivity.
  - change (Z.pos a <? 0) with false. change (Z.pos b <? 0) with false.
    change (Z.to_pos (Z.abs (Z.pos a))) with a.
    change (Z.to_pos (Z.abs (Z.pos b))) with b.
    pose proof (SFdiv_int_bounded false a b 63 ltac:(lia) ltac:(lia)) as H.
    destruct (SFdiv Py.prec Py.emax (S754_finite false a 0)
                    (S754_finite false b 0)) as [s|s| |s m e];
      try contradiction.
    + exists (S754_zero s). now split.
    + exists (S754_finite s m e). now split.
Qed.

Lemma div_half_even_bounds (num den : Z) :
  0 <= num -> 0 < den ->
  0 <= Py.div_half_even num den <= num / den + 1.
Proof.
  intros Hn Hd. unfold Py.div_half_even.
  assert (0 <= num / den) by (apply Z.div_pos; lia).
  destruct (2 * (num mod den) ?= den); [destruct (Z.even _)| |]; lia.
Qed.

(** [round(x, 3)] on a float that is not negative and at most [2 ^ 63]:
    a zero or a finite number, not negative. *)
Lemma float_round_3_bounded (x : spec_float) :
  match x with
  | S754_zero s => s = false
  | S754_finite s m e => s = false /\ e <= 63 /\ Z.pos m <= 2 ^ (63 - e)
  | _ => False
  end ->
  Py.finite_nonneg (PyFloat (Py.float_round x 3)) = true.
Proof.
  destruct x as [s|s| |s m e]; try contradiction.
  - intros ->. reflexivity.
  - intros [-> [He Hm]]. unfold Py.float_round.
    change (10 ^ Z.of_N 3) with 1000. change (Z.to_pos 1000) with 1000%positive.
    set (k := if 0 <=? e then Z.pos m * 2 ^ e * 1000
              else Py.div_half_even (Z.pos m * 1000) (2 ^ (- e))).
    assert (0 <= k < 2 ^ 74) as Hk.
    { subst k. destruct (Z.leb_spec 0 e).
      - replace (63 - e) with (63 + - e) in Hm by lia.
        assert (0 < 2 ^ e) by (apply Z.pow_pos_nonneg; lia).
        assert (2 ^ (63 - e) * 2 ^ e = 2 ^ 63)
          by (rewrite <- Z.pow_add_r by lia; f_equal; lia).
        replace (63 + - e) with (63 - e) in Hm by lia.
        change (2 ^ 74) with (2 ^ 63 * 2048). nia.
      - assert (0 < 2 ^ (- e)) as Hp by (apply Z.pow_pos_nonneg; lia).
        pose proof (div_half_even_bounds (Z.pos m * 1000) (2 ^ (- e))
                      ltac:(lia) Hp) as Hb.
        assert (Z.pos m * 1000 / 2 ^ (- e) <= 2 ^ 63 * 1000).
        { apply Z.div_le_upper_bound; [assumption|].
          replace (63 - e) with (- e + 63) in Hm by lia.
          rewrite Z.pow_add_r in Hm by lia. nia. }
        change (2 ^ 74) with (2 ^ 63 * 2048). lia. }
    clearbody k. destruct k as [|k|k]; [reflexivity| |lia].
    pose proof (SFdiv_int_bounded false k 1000 74 ltac:(lia) ltac:(lia)) as H.
    destruct (SFdiv Py.prec Py.emax (S754_finite false k 0)
                    (S754_finite false 1000 0)) as [s|s| |s m' e'];
      try contradiction.
    + now subst s.
    + destruct H as [-> _]. reflexivity.
Qed.

End FloatFacts.

(** ** The compression ratio *)

Section Ratio.

Variable env : Env.

Lemma word_count_nonneg (text : string) : 0 <= word_count text.
Proof. unfold word_count, Py.len. lia. Qed.

(** The guard of the division: the ratio never fails on a zero divisor. *)
Lemma ratio_of_guarded (summary_words original_words : Z) :
  ratio_of summary_words original_words <> Raised ZeroDivisionError
  /\ (original_words <= 0 ->
      ratio_of summary_words original_words = Returned (PyInt 0)).
Proof.
  unfold ratio_of, Py.int_truediv. split.
  - destruct (Z.ltb_spec 0 original_words); [|discriminate].
    destruct original_words as [|d|d]; try lia.
    destruct summary_words; [discriminate| |];
      match goal with
      | |- context [SFdiv ?p ?e ?x ?y] => destruct (SFdiv p e x y)
      end; discriminate.
  - intros Hle. now destruct (Z.ltb_spec 0 original_words); [lia|].
Qed.

(** With words on both sides and fewer than [2 ^ 63] of them in the
    summary, the ratio is a float and rounding it to three decimals gives a
    finite number that is not negative. *)
Lemma ratio_of_bounded (summary_words original_words : Z) :
  0 <= summary_words < 2 ^ 63 -> 0 < original_words ->
  exists q : spec_float,
    Py.int_truediv summary_words original_words = Returned q
    /\ ratio_of summary_words original_words = Returned (PyFloat q)
    /\ Py.finite_nonneg (Py.round (PyFloat q) 3) = true.
Proof.
  intros Hs Ho.
  destruct (int_truediv_bounded summary_words original_words Hs Ho)
    as [q [Hq Hb]].
  exists q. split; [assumption|]. split.
  - unfold ratio_of. rewrite Hq.
    destruct (Z.ltb_spec 0 original_words); [reflexivity | lia].
  - now apply float_round_3_bounded.
Qed.

(** When the model is there and answers with fewer than [2 ^ 63] words,
    [generate_summary] returns: nothing is raised by the computation of
    the lengths and of the ratio. *)
Lemma generate_summary_returns (text : string) (a b : Z) (w : World)
    (s : string) :
  model_loaded w = true \/ from_pretrained env = None ->
  bart_generate env text a b = Returned s ->
  word_count s < 2 ^ 63 ->
  exists (r : SummaryDict) (w' : World),
    generate_summary env text a b w = (Returned r, w')
    /\ summary_text r = s.
Proof.
  intros Hload Hb Hwc.
  pose proof (word_count_nonneg s) as Hs0.
  destruct (generate_summary env text a b w) as [o w'] eqn:Hrun.
  unfold_run. cbn in Hrun. rewrite Hb in Hrun.
  destruct (Z.ltb_spec 0 (Py.len (Py.split text))) as [Hpos|Hzero].
  - destruct (int_truediv_bounded (Py.len (Py.split s))
                (Py.len (Py.split text)) ltac:(lia) Hpos) as [q [Hq _]].
    rewrite Hq in Hrun.
    destruct (model_loaded w) eqn:Hm.
    + cbn in Hrun. injection Hrun as <- <-. eauto.
    + destruct Hload as [Habs|Hnone]; [discriminate|].
      rewrite Hnone in Hrun. cbn in Hrun. injection Hrun as <- <-. eauto.
  - destruct (model_loaded w) eqn:Hm.
    + cbn in Hrun. injection Hrun as <- <-. eauto.
    + destruct Hload as [Habs|Hnone]; [discriminate|].
      rewrite Hnone in Hrun. cbn in Hrun. injection Hrun as <- <-. eauto.
Qed.

(** C7, as the code has it.  The division by the number of words of the
    input is guarded, so the ratio is always defined and never fails on a
    zero divisor; [generate_summary] returns whenever the model answers
    (with fewer than [2 ^ 63] words); the ratio returned is the integer 0
    for an input without words, and otherwise the float quotient of the two
    word counts rounded to three decimals by [round], not the quotient
    itself; it is a finite number that is not negative. *)
Theorem compression_ratio_rounded (text : string) (a b : Z) (w : World) :
  (forall summary_words : Z,
     ratio_of summary_words (word_count text) <> Raised ZeroDivisionError)
  /\ (forall s : string,
       model_loaded w = true \/ from_pretrained env = None ->
       bart_generate env text a b = Returned s ->
       word_count s < 2 ^ 63 ->
       exists (r : SummaryDict) (w' : World),
         generate_summary env text a b w = (Returned r, w')
         /\ summary_text r = s)
  /\ (forall (r : SummaryDict) (w' : World),
       generate_summary env text a b w = (Returned r, w') ->
       (word_count text = 0 -> compression_ratio r = PyInt 0)
       /\ (0 < word_count text ->
           exists q : spec_float,
             Py.int_truediv (word_count (summary_text r)) (word_count text)
             = Returned q
             /\ compression_ratio r = PyFloat (Py.float_round q 3))
       /\ (word_count (summary_text r) < 2 ^ 63 ->
           Py.finite_nonneg (compression_ratio r) = true)).
Proof.
  split; [|split].
  - intros sw. apply ratio_of_guarded.
  - intros s. apply generate_summary_returns.
  - intros r w' Hrun.
    apply generate_summary_result in Hrun
      as [_ [Ho [Hs [[x [Hx Hc]] _]]]].
    rewrite Ho, Hs in Hx.
    pose proof (word_count_nonneg text) as Ht0.
    pose proof (word_count_nonneg (summary_text r)) as Hs0.
    split; [|split].
    + intros Hzero.
      destruct (ratio_of_guarded (word_count (summary_text r))
                  (word_count text)) as [_ Hg].
      rewrite Hg in Hx by lia. injection Hx as <-. now rewrite Hc.
    + intros Hpos. unfold ratio_of in Hx.
      destruct (Z.ltb_spec 0 (word_count text)); [|lia].
      destruct (Py.int_truediv (word_count (summary_text r))
                               (word_count text)) as [q|e];
        [|discriminate].
      injection Hx as <-. exists q. now rewrite Hc.
    + intros Hbound.
      destruct (Z.eq_dec (word_count text) 0) as [Hzero|Hne].
      * destruct (ratio_of_guarded (word_count (summary_text r))
                    (word_count text)) as [_ Hg].
        rewrite Hg in Hx by lia. injection Hx as <-. now rewrite Hc.
      * destruct (ratio_of_bounded (word_count (summary_text r))
                    (word_count text) ltac:(lia) ltac:(lia))
          as [q [_ [Hr Hf]]].
        rewrite Hr in Hx. injection Hx as <-. now rewrite Hc.
Qed.

End Ratio.

(** ** Runs that return *)

Section Returns.

Variable env : Env.

Lemma generate_summary_keeps_model (text : string) (a b : Z) (w : World)
    (o : outcome SummaryDict) (w' : World) :
  generate_summary env text a b w = (o, w') ->
  model_available env w -> model_available env w'.
Proof.
  intros H [Hm|Hf]; [|now right]. left.
  unfold_run. cbn in H. rewrite Hm in H. cbn in H.
  destruct (bart_generate env text a b); cbn in H;
    [|injection H as <- <-; reflexivity].
  destruct (0 <? Py.len (Py.split text)); cbn in H;
    [|injection H as <- <-; reflexivity].
  destruct (Py.int_truediv _ _); cbn in H; injection H as <- <-; reflexivity.
Qed.

Lemma chunk_phase_returns (chunks : list string) :
  model_answers env ->
  forall w : World,
    model_available env w ->
    exists (sums : list string) (w' : World),
      for_each (fun chunk =>
                  bind (generate_summary env chunk 200 80)
                       (fun result => ret (summary_text result)))
               chunks w
      = (Returned sums, w')
      /\ model_available env w'.
Proof.
  intros Hans. induction chunks as [|c cs IH]; intros w Hw.
  - exists [], w. now split.
  - destruct (Hans c 200 80) as [s [Hb Hs]].
    destruct (generate_summary_returns env c 200 80 w s Hw Hb Hs)
      as [r [w1 [Hg _]]].
    pose proof (generate_summary_keeps_model _ _ _ _ _ _ Hg Hw) as Hw1.
    destruct (IH w1 Hw1) as [sums [w2 [Hf Hw2]]].
    exists (summary_text r :: sums), w2.
    rewrite for_each_cons. cbv beta. rewrite bind_ret_run, Hg, Hf.
    now split.
Qed.

(** With a model that is available and answers, every run of
    [summarize_long_text] returns a dictionary. *)
Lemma summarize_long_text_returns (text : string) (mx mn : Z) (w : World) :
  model_answers env -> model_available env w ->
  exists (r : SummaryDict) (w' : World),
    summarize_long_text env text mx mn w = (Returned r, w').
Proof.
  intros Hans Hw.
  destruct (Z.le_gt_cases (word_count text) 1000) as [Hshort|Hlong].
  - rewrite short_path_run by assumption.
    destruct (Hans text mx mn) as [s [Hb Hs]].
    destruct (generate_summary_returns env text mx mn w s Hw Hb Hs)
      as [r [w' [Hg _]]].
    eauto.
  - unfold summarize_long_text. fold (word_count text).
    destruct (Z.leb_spec (word_count text) 1000); [lia|].
    destruct (chunk_text_spec text 800 w ltac:(lia)) as [chunks [Hc _]].
    destruct (chunk_phase_returns chunks Hans w Hw) as [sums [w1 [Hf Hw1]]].
    destruct (Hans (Py.join " " sums) mx mn) as [s [Hb Hs]].
    destruct (generate_summary_returns env (Py.join " " sums) mx mn w1 s
                Hw1 Hb Hs) as [r [w' [Hg _]]].
    exists r, w'.
    rewrite bind_run, Hc, bind_run, Hf, bind_run, Hg. reflexivity.
Qed.

(** C8. [summarize_long_text] is a total function of its arguments and of
    the state, and with a model that is available and answers it returns a
    dictionary.  Every run makes a bounded number of calls of
    [generate_summary], at most [ceil (words / 800) + 1] on a long text and
    one on a short text.  On a long text the calls are calls on an initial
    stretch of the chunks followed by at most one other call; in a run that
    returns, that call is one call of [generate_summary] itself on the
    joined answers, whose outcome is the outcome of the run, whatever the
    number of words of the joined answers. *)
Theorem reduction_at_most_once (text : string) (mx mn : Z) (w : World)
    (o : outcome SummaryDict) (w' : World) :
  summarize_long_text env text mx mn w = (o, w') ->
  (model_answers env -> model_available env w -> exists r, o = Returned r)
  /\ Py.len (new_calls w w') <= Z.max 1 (ceil_div (word_count text) 800 + 1)
  /\ (1000 < word_count text ->
      exists (chunks : list string) (reductions : list GenCall),
        chunk_text text 800 w = (Returned chunks, w)
        /\ (exists k : nat,
              new_calls w w'
              = map (fun chunk => mkGenCall chunk 200 80) (take k chunks)
                ++ reductions)
        /\ (length reductions <= 1)%nat
        /\ forall r, o = Returned r ->
             exists (sums : list string) (w1 : World),
               reductions = [mkGenCall (Py.join " " sums) mx mn]
               /\ generate_summary env (Py.join " " sums) mx mn w1 = (o, w')
               /\ new_calls w1 w' = [mkGenCall (Py.join " " sums) mx mn]).
Proof.
  intros Hrun. split; [|split].
  - intros Hans Hw.
    destruct (summarize_long_text_returns text mx mn w Hans Hw)
      as [r [w2 Hret]].
    exists r. congruence.
  - destruct (Z.le_gt_cases (word_count text) 1000) as [Hshort|Hlong].
    + destruct (short_path_result env _ _ _ _ _ _ Hshort Hrun) as [_ [Hn _]].
      rewrite Hn. unfold Py.len. cbn [length]. lia.
    + destruct (long_path_run env _ _ _ _ _ _ Hlong Hrun)
        as [chunks [Hc [_ Hcases]]].
      destruct (chunk_text_spec text 800 w ltac:(lia))
        as [chunks' [Hc' [Hlen _]]].
      assert (chunks' = chunks) as -> by congruence.
      destruct Hcases as [[e [k [_ [Hk Hn]]]]|[sums [w1 [_ [_ [_ Hn]]]]]];
        rewrite Hn; unfold Py.len in *;
        rewrite ?length_app, length_map, ?length_take; cbn [length]; lia.
  - intros Hlong.
    destruct (long_path_run env _ _ _ _ _ _ Hlong Hrun)
      as [chunks [Hc [_ Hcases]]].
    destruct Hcases as [[e [k [Ho [Hk Hn]]]]|[sums [w1 [_ [Hlog [Hg Hn]]]]]].
    + exists chunks, []. split; [assumption|]. split; [|split].
      * exists (S k). now rewrite app_nil_r.
      * cbn. lia.
      * intros r Hr. congruence.
    + exists chunks, [mkGenCall (Py.join " " sums) mx mn].
      split; [assumption|]. split; [|split].
      * exists (length chunks). now rewrite take_ge by lia.
      * cbn. lia.
      * intros r Hr. exists sums, w1. split; [reflexivity|].
        split; [assumption|]. apply new_calls_app.
        now apply generate_summary_effect in Hg as [Hg' _].
Qed.

End Returns.

(** ** Degenerate requests *)

Section Degenerate.

Variable env : Env.

(** C5, as the code has it.  [summarize_long_text] does not reject a text
    without words: its outcome is that of one call of [generate_summary] on
    that text, which is logged.  The rejection of empty input is the third
    check of [create_summary]: for a document of the requesting user whose
    extracted text is missing or the empty string it raises the HTTP error
    400 from the state it was entered in, before any call of
    [generate_summary]. *)
Theorem empty_text_not_rejected :
  (forall (text : string) (mx mn : Z) (w : World)
          (o : outcome SummaryDict) (w' : World),
     word_count text = 0 ->
     summarize_long_text env text mx mn w = (o, w') ->
     generate_summary env text mx mn w = (o, w')
     /\ new_calls w w' = [mkGenCall text mx mn])
  /\ (forall (document_id user_id mx mn : Z) (w : World) (d : Document),
       documents w !! document_id = Some d ->
       doc_owner_id d = user_id ->
       extracted_text d = None \/ extracted_text d = Some "" ->
       create_summary env document_id user_id mx mn w
       = (Raised (HTTPException 400 "Document has no extracted text"), w)).
Proof.
  split.
  - intros text mx mn w o w' Hblank Hrun.
    destruct (short_path_result env text mx mn w o w' ltac:(lia) Hrun)
      as [Hg [Hn _]].
    now split.
  - intros document_id user_id mx mn w d Hd Ho Ht.
    destruct (create_summary_checks env document_id user_id mx mn w)
      as [_ [_ H400]].
    apply (H400 d Hd Ho). now destruct Ht as [-> | ->].
Qed.

Lemma validate_accepts (body : SummaryCreate) :
  Schema.validate body = Returned body
  <-> (100 <= max_length body <= 1024 /\ 50 <= min_length body <= 400).
Proof.
  unfold Schema.validate.
  destruct (Z.leb_spec 100 (max_length body));
    destruct (Z.leb_spec (max_length body) 1024);
    destruct (Z.leb_spec 50 (min_length body));
    destruct (Z.leb_spec (min_length body) 400);
    cbn; split; intros Hv; try discriminate; try reflexivity; lia.
Qed.

(** Every run of [summarize_long_text] calls [generate_summary], and a run
    that returns made its last call with the lengths of the caller. *)
Lemma lengths_reach_model (text : string) (mx mn : Z) (w : World)
    (o : outcome SummaryDict) (w' : World) :
  summarize_long_text env text mx mn w = (o, w') ->
  new_calls w w' <> []
  /\ forall r, o = Returned r ->
       exists t : string, last (new_calls w w') = Some (mkGenCall t mx mn).
Proof.
  intros Hrun.
  destruct (Z.le_gt_cases (word_count text) 1000) as [Hshort|Hlong].
  - destruct (short_path_result env text mx mn w o w' Hshort Hrun)
      as [_ [Hn _]].
    rewrite Hn. split; [discriminate|]. intros r _. now exists text.
  - destruct (long_path_run env text mx mn w o w' Hlong Hrun)
      as [chunks [_ [_ Hcases]]].
    destruct Hcases as [[e [k [Ho [Hk Hn]]]]|[sums [w1 [_ [_ [_ Hn]]]]]];
      rewrite Hn.
    + split; [|intros r Hr; congruence].
      destruct chunks; [cbn in Hk; lia | discriminate].
    + split; [now destruct (map _ chunks)|].
      intros r _. exists (Py.join " " sums). now rewrite last_snoc.
Qed.

(** C6, as the code has it.  Nothing compares [min_length] with
    [max_length].  The schema of the request accepts a body exactly when
    [100 <= max_length <= 1024] and [50 <= min_length <= 400], each bound
    on its own; and [summarize_long_text] rejects nothing: whatever the two
    lengths, it calls [generate_summary] at least once, and the last call
    of a run that returns carries the two lengths as the caller gave
    them. *)
Theorem length_bounds_not_compared :
  (forall body : SummaryCreate,
     Schema.validate body = Returned body
     <-> (100 <= max_length body <= 1024 /\ 50 <= min_length body <= 400))
  /\ (forall (text : string) (mx mn : Z) (w : World)
             (o : outcome SummaryDict) (w' : World),
       summarize_long_text env text mx mn w = (o, w') ->
       new_calls w w' <> []
       /\ forall r, o = Returned r ->
            exists t : string,
              last (new_calls w w') = Some (mkGenCall t mx mn)).
Proof.
  split; [apply validate_accepts | apply lengths_reach_model].
Qed.

End Degenerate.

(** ** The properties on sample runs *)

Section Samples.

Import Sample.

Example split_runs :
  Py.split ("  the quick" ++ String (ascii_of_nat 10) "brown   fox ")%string
  = ["the"; "quick"; "brown"; "fox"].
Proof. reflexivity. Qed.

Example split_blank : Py.split "   " = [].
Proof. reflexivity. Qed.

Example range_800 : Py.range 0 1601 800 = [0; 800; 1600].
Proof. reflexivity. Qed.

Example range_negative_step : Py.range 0 5 (-2) = [].
Proof. reflexivity. Qed.

Example chunk_text_zero_size :
  chunk_text "a b c" 0 fresh
  = (Raised (ValueError "range() arg 3 must not be zero"), fresh).
Proof. reflexivity. Qed.

Example chunk_text_negative_size :
  chunk_text "a b c" (-2) fresh = (Returned [], fresh).
Proof. reflexivity. Qed.

Example round_half_even_exact :
  Py.float_round (S754_finite false 1 (-3)) 2
  = S754_finite false 8646911284551352 (-56).
Proof. vm_compute. reflexivity. Qed.

(** On the long path the dictionary returned describes the last call: its
    [original_length] counts the words of the joined answers. *)
Example long_text_reports_joined_length :
  fst (summarize_long_text lead_env long_text 400 150 fresh)
  = Returned (mkSummaryDict "w w w" one_second 7 3
                (PyFloat (S754_finite false 7728176960567771 (-54)))).
Proof. vm_compute. reflexivity. Qed.

Lemma long_text_call_count_witness :
  1000 < word_count long_text
  /\ exists (o : outcome SummaryDict) (w' : World),
       summarize_long_text lead_env long_text 400 150 fresh = (o, w')
       /\ (exists r, o = Returned r)
       /\ Py.len (new_calls fresh w') = ceil_div (word_count long_text) 800 + 1
       /\ Py.len (new_calls fresh w') = 4.
Proof.
  split; [vm_compute; reflexivity|].
  eexists. eexists. split; [vm_compute; reflexivity|].
  split; [eexists; reflexivity|].
  match goal with
  | |- Py.len (new_calls _ ?w') = _ /\ _ =>
      destruct (long_text_call_count lead_env long_text 400 150 fresh _ w'
                  ltac:(vm_compute; reflexivity)
                  ltac:(vm_compute; reflexivity))
        as [_ [Hexact H1601]]
  end.
  split.
  - destruct (Hexact _ eq_refl) as [chunks [_ [_ Hn]]]. exact Hn.
  - destruct (H1601 ltac:(vm_compute; reflexivity))
      as [c1 [c2 [c3 [_ [_ Hfour]]]]].
    exact (Hfour _ eq_refl).
Defined.

Lemma chunk_text_partitions_witness :
  0 < 2
  /\ exists chunks : list string,
       chunk_text "a b  c d e" 2 fresh = (Returned chunks, fresh)
       /\ Py.len chunks = ceil_div (word_count "a b  c d e") 2
       /\ concat (map Py.split chunks) = Py.split "a b  c d e".
Proof.
  split; [lia|].
  destruct (chunk_text_partitions "a b  c d e" 2 fresh ltac:(lia))
    as [chunks [Hc [Hlen [_ Hall]]]].
  exists chunks. auto.
Defined.

Lemma long_text_trace_witness :
  1000 < word_count long_text
  /\ exists (r : SummaryDict) (w' : World),
       summarize_long_text lead_env long_text 400 150 fresh = (Returned r, w')
       /\ exists (chunks sums : list string),
            chunk_text long_text 800 fresh = (Returned chunks, fresh)
            /\ Forall2 (fun chunk s =>
                          bart_generate lead_env chunk 200 80 = Returned s)
                       chunks sums
            /\ new_calls fresh w'
               = map (fun chunk => mkGenCall chunk 200 80) chunks
                 ++ [mkGenCall (Py.join " " sums) 400 150].
Proof.
  split; [vm_compute; reflexivity|].
  eexists. eexists. split; [vm_compute; reflexivity|].
  match goal with
  | |- exists chunks sums, _ /\ _ /\ new_calls _ ?w' = _ =>
      destruct (long_text_trace lead_env long_text 400 150 fresh _ w'
                  ltac:(vm_compute; reflexivity)
                  ltac:(vm_compute; reflexivity))
        as [chunks [sums [w1 [Hc [Hall [Hn _]]]]]]
  end.
  exists chunks, sums. auto.
Defined.

Lemma short_text_direct_witness :
  word_count "one two three" <= 1000
  /\ exists (o : outcome SummaryDict) (w' : World),
       summarize_long_text lead_env "one two three" 400 150 fresh = (o, w')
       /\ generate_summary lead_env "one two three" 400 150 fresh = (o, w')
       /\ new_calls fresh w' = [mkGenCall "one two three" 400 150].
Proof.
  split; [vm_compute; discriminate|].
  eexists. eexists. split; [vm_compute; reflexivity|].
  match goal with
  | |- _ = (?o, ?w') /\ _ =>
      destruct (short_text_direct lead_env "one two three" 400 150 fresh o w'
                  ltac:(vm_compute; discriminate)
                  ltac:(vm_compute; reflexivity))
        as [Hg [Hn _]]
  end.
  auto.
Defined.

Lemma blank_text_direct_witness :
  word_count "   " = 0
  /\ exists (r : SummaryDict) (w' : World),
       summarize_long_text lead_env "   " 400 150 fresh = (Returned r, w')
       /\ new_calls fresh w' = [mkGenCall "   " 400 150]
       /\ compression_ratio r = PyInt 0.
Proof.
  split; [reflexivity|].
  eexists. eexists. split; [vm_compute; reflexivity|].
  match goal with
  | |- new_calls _ ?w' = _ /\ compression_ratio ?r = _ =>
      destruct (blank_text_direct lead_env "   " 400 150 fresh (Returned r) w'
                  eq_refl ltac:(vm_compute; reflexivity))
        as [_ [Hn Hr]]
  end.
  split; [exact Hn|]. exact (proj1 (Hr _ eq_refl)).
Defined.

Lemma reduction_at_most_once_witness :
  exists (r : SummaryDict) (w' : World),
    summarize_long_text echo_env longish_text 400 150 fresh = (Returned r, w')
    /\ 1000 < original_length r
    /\ Py.len (new_calls fresh w') = 3
    /\ exists (sums : list string) (w1 : World),
         generate_summary echo_env (Py.join " " sums) 400 150 w1
         = (Returned r, w')
         /\ new_calls w1 w' = [mkGenCall (Py.join " " sums) 400 150].
Proof.
  eexists. eexists. split; [vm_compute; reflexivity|].
  split; [vm_compute; reflexivity|].
  split; [vm_compute; reflexivity|].
  match goal with
  | |- exists sums w1, _ = (Returned ?r, ?w') /\ _ =>
      destruct (reduction_at_most_once echo_env longish_text 400 150 fresh
                  (Returned r) w' ltac:(vm_compute; reflexivity))
        as [_ [_ Honce]]
  end.
  destruct (Honce ltac:(vm_compute; reflexivity))
    as [chunks [reductions [_ [_ [_ Hret]]]]].
  destruct (Hret _ eq_refl) as [sums [w1 [_ [Hg Hn]]]].
  exists sums, w1. auto.
Defined.

Lemma create_summary_rejects_early_witness :
  create_summary lead_env 99 7 100 50 library
  = (Raised (HTTPException 404 "Document not found"), library)
  /\ create_summary lead_env 1 8 100 50 library
     = (Raised (HTTPException 403 "Access denied"), library)
  /\ create_summary lead_env 2 7 100 50 library
     = (Raised (HTTPException 400 "Document has no extracted text"), library).
Proof.
  split; [|split].
  - destruct (create_summary_rejects_early lead_env 99 7 100 50 library)
      as [H404 _].
    destruct (H404 eq_refl) as [w' [H [_ [_ Hw]]]]. now rewrite Hw in H.
  - destruct (create_summary_rejects_early lead_env 1 8 100 50 library)
      as [_ [H403 _]].
    destruct (H403 (mkDocument 7 "a.txt" (Some "one two three")) eq_refl
                ltac:(cbn; lia))
      as [w' [H [_ [_ Hw]]]].
    now rewrite Hw in H.
  - destruct (create_summary_rejects_early lead_env 2 7 100 50 library)
      as [_ [_ H400]].
    destruct (H400 (mkDocument 7 "b.pdf" None) eq_refl eq_refl eq_refl)
      as [w' [H [_ [_ Hw]]]].
    now rewrite Hw in H.
Defined.

(** C5 fails on the code: the empty text is summarized, with one call of
    the model, and so is the blank text of document 3 through
    [create_summary]. *)
Lemma empty_text_reaches_model :
  summarize_long_text lead_env "" 100 10 fresh
  = (Returned (mkSummaryDict "" one_second 0 0 (PyInt 0)),
     mkWorld [mkGenCall "" 100 10] true 2 ∅ ∅)
  /\ fst (create_summary lead_env 3 7 100 50 library)
     = Returned (1, mkSummary 3 7 "" 0 (PyInt 0) one_second 100 50
                             "facebook/bart-large-cnn")
  /\ gen_calls (snd (create_summary lead_env 3 7 100 50 library))
     = [mkGenCall "   " 100 50].
Proof. vm_compute. repeat split; reflexivity. Qed.

Lemma empty_text_not_rejected_witness :
  (exists (o : outcome SummaryDict) (w' : World),
     summarize_long_text lead_env "" 100 10 fresh = (o, w')
     /\ generate_summary lead_env "" 100 10 fresh = (o, w')
     /\ new_calls fresh w' = [mkGenCall "" 100 10])
  /\ create_summary lead_env 2 7 100 10 library
     = (Raised (HTTPException 400 "Document has no extracted text"), library).
Proof.
  destruct (empty_text_not_rejected lead_env) as [Hdirect Hcheck].
  split.
  - eexists. eexists. split; [vm_compute; reflexivity|].
    apply Hdirect; [reflexivity | vm_compute; reflexivity].
  - apply (Hcheck 2 7 100 10 library (mkDocument 7 "b.pdf" None));
      [reflexivity | reflexivity | now left].
Defined.

(** C6 fails on the code: with [max_length = 50] and [min_length = 100]
    the text goes to the model with these two lengths; and the schema lets
    through a request with [max_length = 100] and [min_length = 400], which
    reaches the model as well. *)
Lemma inverted_bounds_reach_model :
  summarize_long_text lead_env "one two three" 50 100 fresh
  = (Returned (mkSummaryDict "one two three" one_second 3 3 one_second),
     mkWorld [mkGenCall "one two three" 50 100] true 2 ∅ ∅)
  /\ Schema.validate (mkSummaryCreate 1 100 400)
     = Returned (mkSummaryCreate 1 100 400)
  /\ fst (Router.post_generate lead_env (mkSummaryCreate 1 100 400) 7 library)
     = Returned (1, mkSummary 1 7 "one two three" 3 one_second one_second
                             100 400 "facebook/bart-large-cnn")
  /\ gen_calls
       (snd (Router.post_generate lead_env (mkSummaryCreate 1 100 400) 7
                                  library))
     = [mkGenCall "one two three" 100 400].
Proof. vm_compute. repeat split; reflexivity. Qed.

Lemma length_bounds_not_compared_witness :
  Schema.validate (mkSummaryCreate 1 100 400)
  = Returned (mkSummaryCreate 1 100 400)
  /\ exists (r : SummaryDict) (w' : World),
       summarize_long_text lead_env "one two three" 100 400 fresh
       = (Returned r, w')
       /\ new_calls fresh w' <> []
       /\ exists t : string,
            last (new_calls fresh w') = Some (mkGenCall t 100 400).
Proof.
  destruct (length_bounds_not_compared lead_env) as [Hschema Hrun].
  split.
  - apply Hschema. cbn. lia.
  - eexists. eexists. split; [vm_compute; reflexivity|].
    match goal with
    | |- new_calls _ ?w' <> _ /\ _ =>
        destruct (Hrun "one two three" 100 400 fresh _ w'
                    ltac:(vm_compute; reflexivity)) as [Hne Hlast]
    end.
    split; [exact Hne|]. exact (Hlast _ eq_refl).
Defined.

(** C7 fails on the code: one word out of three is reported as 0.333, the
    binary64 number nearest to 333/1000, and not as the quotient 1/3. *)
Lemma ratio_one_third_is_rounded :
  fst (generate_summary headline_env "one two three" 100 10 fresh)
  = Returned (mkSummaryDict "one" one_second 3 1
                (PyFloat (S754_finite false 5998794703657501 (-54))))
  /\ Py.int_truediv 1 3 = Returned (S754_finite false 6004799503160661 (-54)).
Proof. vm_compute. split; reflexivity. Qed.

Lemma compression_ratio_rounded_witness :
  exists (r : SummaryDict) (w' : World),
    generate_summary headline_env "one two three" 100 10 fresh
    = (Returned r, w')
    /\ (exists q : spec_float,
          Py.int_truediv (word_count (summary_text r))
                         (word_count "one two three") = Returned q
          /\ compression_ratio r = PyFloat (Py.float_round q 3))
    /\ Py.finite_nonneg (compression_ratio r) = true.
Proof.
  destruct (compression_ratio_rounded headline_env "one two three" 100 10 fresh)
    as [_ [Hreturns Hratio]].
  destruct (Hreturns "one" ltac:(now right) eq_refl
              ltac:(vm_compute; reflexivity)) as [r [w' [Hrun Htext]]].
  exists r, w'. split; [exact Hrun|].
  destruct (Hratio r w' Hrun) as [_ [Hq Hfin]].
  split.
  - apply Hq. vm_compute. reflexivity.
  - apply Hfin. rewrite Htext. vm_compute. reflexivity.
Defined.

End Samples.

(** * More of the service *)

(** ** Loading the model, and the failures of the model *)

Section ModelFailures.

Variable env : Env.


(** A call of [generate_summary] on which the model raises. *)
Lemma generate_summary_raises (text : string) (a b : Z) (w : World)
    (e : exn) :
  model_available env w ->
  bart_generate env text a b = Raised e ->
  exists w' : World,
    generate_summary env text a b w = (Raised e, w')
    /\ clock_reads w' = S (clock_reads w)
    /\ model_loaded w' = true.
Proof.
  intros Hw Hb. unfold_run. cbn. rewrite Hb.
  destruct (model_loaded w) eqn:Hm.
  - cbn. eexists. repeat split.
  - destruct Hw as [Habs|Hf]; [congruence|]. rewrite Hf. cbn.
    eexists. repeat split.
Qed.

(** After a call of [generate_summary] for which the model was available,
    the model is in the cache, whatever the call did next. *)
Lemma generate_summary_sets_cache (text : string) (a b : Z) (w : World)
    (o : outcome SummaryDict) (w' : World) :
  model_available env w ->
  generate_summary env text a b w = (o, w') ->
  model_loaded w' = true.
Proof.
  intros Hw H. unfold_run. cbn in H.
  destruct (model_loaded w) eqn:Hm.
  - rewrite ?Hm in H. cbn in H.
    destruct (bart_generate env text a b); cbn in H;
      [|injection H as <- <-; reflexivity].
    destruct (0 <? Py.len (Py.split text)); cbn in H;
      [|injection H as <- <-; reflexivity].
    destruct (Py.int_truediv _ _); cbn in H; injection H as <- <-;
      reflexivity.
  - destruct Hw as [Habs|Hf]; [congruence|]. rewrite Hf in H. cbn in H.
    destruct (bart_generate env text a b); cbn in H;
      [|injection H as <- <-; reflexivity].
    destruct (0 <? Py.len (Py.split text)); cbn in H;
      [|injection H as <- <-; reflexivity].
    destruct (Py.int_truediv _ _); cbn in H; injection H as <- <-;
      reflexivity.
Qed.

(** With the model in the cache, [generate_summary] does not look at the
    loader. *)
Lemma generate_summary_ignores_loader (loader : option string)
    (text : string) (a b : Z) (w : World) :
  model_loaded w = true ->
  generate_summary (with_loader env loader) text a b w
  = generate_summary env text a b w.
Proof.
  intros Hm. unfold_run. cbn. now rewrite Hm.
Qed.

Lemma chunk_phase_ignores_loader (loader : option string)
    (chunks : list string) :
  forall w : World,
    model_loaded w = true ->
    for_each (summarize_chunk (with_loader env loader)) chunks w
    = for_each (summarize_chunk env) chunks w
    /\ model_loaded (snd (for_each (summarize_chunk env) chunks w)) = true.
Proof.
  induction chunks as [|c cs IH]; intros w Hm; [now split|].
  rewrite !for_each_cons. cbv beta. rewrite !bind_ret_run.
  rewrite generate_summary_ignores_loader by assumption.
  destruct (generate_summary env c 200 80 w) as [o1 w1] eqn:Hg.
  pose proof (generate_summary_sets_cache _ _ _ _ _ _ (or_introl Hm) Hg)
    as Hm1.
  destruct o1 as [r|e]; [|split; [reflexivity | exact Hm1]].
  destruct (IH w1 Hm1) as [-> Hm2].
  destruct (for_each (summarize_chunk env) cs w1) as [[sums|e] w2];
    (split; [reflexivity | exact Hm2]).
Qed.

(** X2. Once the model is in the cache it is never loaded again: a run of
    [summarize_long_text] is the same whatever the loader would answer, and
    the model is still in the cache after it. *)
Theorem loaded_model_is_reused (loader : option string) (text : string)
    (mx mn : Z) (w : World) :
  model_loaded w = true ->
  summarize_long_text (with_loader env loader) text mx mn w
  = summarize_long_text env text mx mn w
  /\ model_loaded (snd (summarize_long_text env text mx mn w)) = true.
Proof.
  intros Hm. unfold summarize_long_text.
  destruct (Py.len (Py.split text) <=? 1000).
  - rewrite generate_summary_ignores_loader by assumption. split; [reflexivity|].
    destruct (generate_summary env text mx mn w) as [o w'] eqn:Hg.
    exact (generate_summary_sets_cache _ _ _ _ _ _ (or_introl Hm) Hg).
  - rewrite !bind_run.
    destruct (chunk_text text 800 w) as [[chunks|e] w0] eqn:Hc.
    + assert (w0 = w) as ->.
      { unfold chunk_text in Hc. destruct (800 =? 0); now inversion Hc. }
      rewrite !bind_run.
      destruct (chunk_phase_ignores_loader loader chunks w Hm) as [-> Hm1].
      destruct (for_each (summarize_chunk env) chunks w) as [[sums|e] w1];
        cbn [snd] in Hm1; [|split; [reflexivity | exact Hm1]]. rewrite !bind_run.
      rewrite generate_summary_ignores_loader by assumption.
      split; [reflexivity|].
      destruct (generate_summary env (Py.join " " sums) mx mn w1)
        as [o w'] eqn:Hg.
      pose proof (generate_summary_sets_cache _ _ _ _ _ _ (or_introl Hm1) Hg)
        as Hm2.
      destruct o; exact Hm2.
    + unfold chunk_text in Hc. discriminate.
Qed.


Lemma chunk_phase_aborts (pre : list string) (c : string)
    (post : list string) (e : exn) :
  bart_generate env c 200 80 = Raised e ->
  Forall (fun p => exists s, bart_generate env p 200 80 = Returned s
                             /\ word_count s < 2 ^ 63) pre ->
  forall w : World,
    model_available env w ->
    exists w' : World,
      for_each (summarize_chunk env) (pre ++ c :: post) w = (Raised e, w')
      /\ gen_calls w' = gen_calls w ++ map chunk_call (pre ++ [c])
      /\ same_database w w'.
Proof.
  intros Hc. induction 1 as [|p pre [s [Hp Hs]] Hpre IH]; intros w Hw.
  - destruct (generate_summary_raises c 200 80 w e Hw Hc) as [w' [Hg _]].
    destruct (generate_summary_effect _ _ _ _ _ _ _ Hg) as [Hlog Hdb].
    exists w'. cbn [app]. rewrite for_each_cons. cbv beta.
    rewrite bind_ret_run, Hg. auto.
  - destruct (generate_summary_returns env p 200 80 w s Hw Hp Hs)
      as [r [w1 [Hg _]]].
    destruct (generate_summary_effect _ _ _ _ _ _ _ Hg) as [Hlog [Hd1 Hs1]].
    pose proof (generate_summary_keeps_model _ _ _ _ _ _ _ Hg Hw) as Hw1.
    destruct (IH w1 Hw1) as [w' [Hf [Hlog' [Hd2 Hs2]]]].
    exists w'. cbn [app]. rewrite for_each_cons. cbv beta.
    rewrite bind_ret_run, Hg, Hf. split; [reflexivity|].
    split; [|split; congruence].
    rewrite Hlog', Hlog, <- app_assoc. reflexivity.
Qed.

(** X3. When the model raises on a chunk after answering on the chunks
    before it, the run stops there: the exception comes out as it is, the
    calls made are the calls on the chunks up to that one, no reduction
    call is made, and the database is left alone. *)
Theorem chunk_failure_aborts (text : string) (mx mn : Z) (w : World)
    (pre : list string) (c : string) (post : list string) (e : exn) :
  1000 < word_count text ->
  model_available env w ->
  chunk_text text 800 w = (Returned (pre ++ c :: post), w) ->
  Forall (fun p => exists s, bart_generate env p 200 80 = Returned s
                             /\ word_count s < 2 ^ 63) pre ->
  bart_generate env c 200 80 = Raised e ->
  exists w' : World,
    summarize_long_text env text mx mn w = (Raised e, w')
    /\ new_calls w w' = map (fun chunk => mkGenCall chunk 200 80) (pre ++ [c])
    /\ same_database w w'.
Proof.
  intros Hlong Hw Hchunks Hpre Hc.
  destruct (chunk_phase_aborts pre c post e Hc Hpre w Hw)
    as [w' [Hf [Hlog Hdb]]].
  exists w'. unfold summarize_long_text. fold (word_count text).
  destruct (Z.leb_spec (word_count text) 1000); [lia|].
  rewrite bind_run, Hchunks, bind_run, Hf.
  split; [reflexivity|]. split; [now apply new_calls_app | assumption].
Qed.

End ModelFailures.

(** ** The edges of [chunk_text] *)

Section ChunkEdges.

Lemma range_negative (stop step : Z) :
  0 <= stop -> step < 0 -> Py.range 0 stop step = [].
Proof.
  intros Hstop Hstep. unfold Py.range, Py.range_count.
  destruct (Z.ltb_spec 0 step); [lia|].
  assert ((0 - stop - step - 1) / (- step) <= 0) as Hq.
  { apply Z.lt_succ_r. apply Z.div_lt_upper_bound; lia. }
  rewrite Z.max_l by assumption. reflexivity.
Qed.

(** X4. A chunk size of zero makes [chunk_text] raise [ValueError], and a
    negative chunk size makes it return no chunk at all, whatever the
    text. *)
Theorem chunk_text_bad_size (text : string) (n : Z) (w : World) :
  (n = 0 ->
   chunk_text text n w
   = (Raised (ValueError "range() arg 3 must not be zero"), w))
  /\ (n < 0 -> chunk_text text n w = (Returned [], w)).
Proof.
  split.
  - intros ->. reflexivity.
  - intros Hn. rewrite chunk_text_run by lia.
    rewrite range_negative by (unfold Py.len; lia). reflexivity.
Qed.

Lemma append_assoc (a b c : string) :
  ((a ++ b) ++ c)%string = (a ++ (b ++ c))%string.
Proof.
  induction a as [|x a IH]; [reflexivity|].
  change (String x ((a ++ b) ++ c)%string = String x (a ++ (b ++ c))%string).
  now f_equal.
Qed.

Lemma join_cons (sep u : string) (v : string) (ws : list string) :
  Py.join sep (u :: v :: ws) = (u ++ sep ++ Py.join sep (v :: ws))%string.
Proof. reflexivity. Qed.

Lemma join_app (sep : string) (p l : list string) :
  p <> [] -> l <> [] ->
  Py.join sep (p ++ l)
  = (Py.join sep p ++ sep ++ Py.join sep l)%string.
Proof.
  intros Hp Hl. induction p as [|u p IH]; [congruence|].
  destruct p as [|v p].
  - destruct l as [|x l]; [congruence|]. reflexivity.
  - change ((u :: v :: p) ++ l) with (u :: v :: (p ++ l)).
    rewrite !join_cons.
    change (v :: p ++ l) with ((v :: p) ++ l).
    rewrite IH by discriminate. now rewrite !append_assoc.
Qed.

(** Joining the joined pieces is joining all the words. *)
Lemma join_pieces (ps : list (list string)) :
  Forall (fun p => p <> []) ps ->
  Py.join " " (map (Py.join " ") ps) = Py.join " " (concat ps).
Proof.
  induction 1 as [|p ps Hp Hps IH]; [reflexivity|].
  destruct ps as [|q ps].
  - cbn [map concat]. now rewrite app_nil_r.
  - change (map (Py.join " ") (p :: q :: ps))
      with (Py.join " " p :: Py.join " " q :: map (Py.join " ") ps).
    rewrite join_cons.
    change (Py.join " " q :: map (Py.join " ") ps)
      with (map (Py.join " ") (q :: ps)).
    rewrite IH.
    change (concat (p :: q :: ps)) with (p ++ concat (q :: ps)).
    rewrite (join_app " " p (concat (q :: ps))); [reflexivity|assumption|].
    inversion Hps; subst. cbn [concat]. destruct q; [congruence | discriminate].
Qed.

Lemma pieces_nonempty {A} (n : nat) (l : list A) (m : nat) :
  (0 < n)%nat -> ((m - 1) * n < length l)%nat -> (0 < m)%nat ->
  Forall (fun p => p <> []) (pieces n l m).
Proof.
  intros Hn Hm Hm0. unfold pieces. apply Forall_map, Forall_forall.
  intros k Hk. apply elem_of_seq in Hk.
  assert (k * n < length l)%nat by nia.
  intros Habs. apply (f_equal length) in Habs.
  rewrite length_take, length_drop in Habs. cbn in Habs. lia.
Qed.

Lemma chunk_text_single (piece : list string) (n : Z) (w : World) :
  Forall is_word piece -> piece <> [] -> Py.len piece <= n ->
  chunk_text (Py.join " " piece) n w = (Returned [Py.join " " piece], w).
Proof.
  intros Hwords Hne Hlen.
  assert (0 < Py.len piece)
    by (unfold Py.len; destruct piece; [congruence | cbn; lia]).
  rewrite chunk_text_run by lia. rewrite split_join by assumption.
  unfold Py.range. rewrite range_count_ceil by lia.
  replace (ceil_div (Py.len piece) n) with 1
    by (apply ceil_div_unique; lia).
  change (seq 0 (Z.to_nat 1)) with [0%nat]. cbn [map].
  unfold Py.slice.
  replace (Z.to_nat (0 + Z.of_nat 0 * n)) with 0%nat by lia.
  rewrite drop_0, take_ge by (unfold Py.len in *; lia).
  reflexivity.
Qed.

(** X5. For a chunk size above zero, the chunks joined by single spaces are
    the words of the text joined by single spaces, and every chunk is left
    as it is by [chunk_text]: chunking it again gives that chunk alone. *)
Theorem chunks_are_normal (text : string) (n : Z) (w : World)
    (chunks : list string) :
  0 < n ->
  chunk_text text n w = (Returned chunks, w) ->
  Py.join " " chunks = Py.join " " (Py.split text)
  /\ forall c : string,
       In c chunks -> chunk_text c n w = (Returned [c], w).
Proof.
  intros Hn Hrun. rewrite chunk_text_run in Hrun by lia.
  rewrite chunk_text_pieces in Hrun by assumption.
  injection Hrun as <-.
  pose proof (split_words text) as Hwords.
  pose proof (ceil_div_spec (word_count text) n Hn) as Hceil.
  pose proof (word_count_nonneg text) as Hwc.
  pose proof (ceil_div_nonneg _ _ Hn Hwc) as Hm0.
  assert (Z.of_nat (length (Py.split text)) = word_count text) as Hlen
    by reflexivity.
  assert (Z.of_nat (Z.to_nat (ceil_div (word_count text) n))
          = ceil_div (word_count text) n) as Hm by lia.
  set (m := Z.to_nat (ceil_div (word_count text) n)) in *.
  split.
  - destruct (Nat.eq_dec m 0%nat) as [Hz|Hz].
    + rewrite Hz. cbn [pieces seq map].
      assert (length (Py.split text) = 0%nat) as Hl by lia.
      now destruct (Py.split text).
    + rewrite join_pieces by (apply pieces_nonempty; nia).
      rewrite pieces_concat, take_ge by nia. reflexivity.
  - intros c Hc. apply in_map_iff in Hc as [piece [<- Hp]].
    unfold pieces in Hp. apply in_map_iff in Hp as [k [<- Hk]].
    apply in_seq in Hk.
    apply chunk_text_single.
    + now apply Forall_take_drop.
    + intros Habs. apply (f_equal length) in Habs.
      rewrite length_take, length_drop in Habs. cbn in Habs. nia.
    + unfold Py.len. rewrite length_take. lia.
Qed.

End ChunkEdges.

(** ** [create_summary]: what it stores, and what it leaves alone *)

Section Create.

Variable env : Env.

Lemma foldr_max_ge (k : Z) (l : list Z) : In k l -> k <= foldr Z.max 0 l.
Proof.
  induction l as [|x l IH]; [contradiction|].
  intros [->|Hin]; cbn [foldr]; [lia|]. specialize (IH Hin). lia.
Qed.

(** The key given to a new row is not in the table. *)
Lemma next_id_fresh {A} (table : gmap Z A) : table !! next_id table = None.
Proof.
  destruct (table !! next_id table) as [x|] eqn:Hx; [|reflexivity].
  exfalso.
  assert (next_id table ∈ dom table) as Hd
    by (apply elem_of_dom; eauto).
  apply elem_of_elements, list_elem_of_In, foldr_max_ge in Hd.
  unfold next_id in Hd at 1. unfold next_id in Hd. lia.
Qed.

(** No run of [summarize_long_text] touches the database, and the
    dictionary it returns counts the words of the summary it holds. *)
Lemma summarize_long_text_effect (text : string) (mx mn : Z) (w : World)
    (o : outcome SummaryDict) (w' : World) :
  summarize_long_text env text mx mn w = (o, w') ->
  same_database w w'
  /\ forall r, o = Returned r ->
       summary_length r = word_count (summary_text r).
Proof.
  intros Hrun.
  destruct (Z.le_gt_cases (word_count text) 1000) as [Hshort|Hlong].
  - rewrite short_path_run in Hrun by assumption. split.
    + now apply generate_summary_effect in Hrun.
    + intros r ->. now apply generate_summary_result in Hrun.
  - destruct (long_path_run env text mx mn w o w' Hlong Hrun)
      as [chunks [_ [Hdb Hcases]]].
    split; [assumption|]. intros r ->.
    destruct Hcases as [[e [k [Habs _]]]|[sums [w1 [_ [_ [Hg _]]]]]];
      [discriminate|].
    now apply generate_summary_result in Hg.
Qed.

(** The run of [create_summary] once the three checks are passed. *)
Lemma create_summary_passed (document_id user_id mx mn : Z) (w : World)
    (d : Document) (text : string) :
  documents w !! document_id = Some d ->
  doc_owner_id d = user_id ->
  extracted_text d = Some text -> text <> "" ->
  create_summary env document_id user_id mx mn w
  = match summarize_long_text env text mx mn w with
    | (Returned result, w1) =>
        db_add_summary
          (mkSummary document_id user_id (summary_text result)
                     (summary_length result) (compression_ratio result)
                     (generation_time result) mx mn
                     "facebook/bart-large-cnn") w1
    | (Raised e, w1) => (Raised e, w1)
    end.
Proof.
  intros Hd Ho Ht Hne. unfold create_summary.
  rewrite bind_run. cbn [get_world]. rewrite Hd.
  destruct (Z.eqb_spec (doc_owner_id d) user_id); [|contradiction].
  cbn [negb]. rewrite Ht.
  destruct text as [|c text]; [congruence|]. reflexivity.
Qed.

(** Every run of [create_summary] falls under one of the three checks or
    passes them. *)
Lemma create_summary_cases (document_id user_id mx mn : Z) (w : World) :
  (exists e, create_summary env document_id user_id mx mn w = (Raised e, w))
  \/ exists (d : Document) (text : string),
       documents w !! document_id = Some d
       /\ doc_owner_id d = user_id
       /\ extracted_text d = Some text /\ text <> "".
Proof.
  destruct (create_summary_checks env document_id user_id mx mn w)
    as [H404 [H403 H400]].
  destruct (documents w !! document_id) as [d|] eqn:Hd.
  2: { left. eexists. now apply H404. }
  destruct (Z.eq_dec (doc_owner_id d) user_id) as [Ho|Ho].
  2: { left. eexists. now apply (H403 d). }
  destruct (extracted_text d) as [[|c text]|] eqn:Ht.
  - left. eexists. apply (H400 d); auto. now rewrite Ht.
  - right. exists d, (String c text). repeat split; auto; discriminate.
  - left. eexists. apply (H400 d); auto. now rewrite Ht.
Qed.

(** What a call of [create_summary] that returns has done. *)
Lemma create_summary_returned (document_id user_id mx mn : Z) (w : World)
    (id : Z) (row : Summary) (w' : World) :
  create_summary env document_id user_id mx mn w = (Returned (id, row), w') ->
  (exists (d : Document) (text : string) (r : SummaryDict) (w1 : World),
     documents w !! document_id = Some d
     /\ doc_owner_id d = user_id
     /\ extracted_text d = Some text /\ text <> ""
     /\ summarize_long_text env text mx mn w = (Returned r, w1)
     /\ row = mkSummary document_id user_id (summary_text r)
                        (summary_length r) (compression_ratio r)
                        (generation_time r) mx mn "facebook/bart-large-cnn")
  /\ sum_word_count row = word_count (sum_summary_text row)
  /\ summaries w !! id = None
  /\ summaries w' = <[id := row]> (summaries w)
  /\ documents w' = documents w.
Proof.
  intros Hrun.
  destruct (create_summary_cases document_id user_id mx mn w)
    as [[e He]|[d [text [Hd [Ho [Ht Hne]]]]]]; [congruence|].
  rewrite (create_summary_passed _ _ _ _ _ d text Hd Ho Ht Hne) in Hrun.
  destruct (summarize_long_text env text mx mn w) as [[r|e] w1] eqn:Hs;
    [|discriminate].
  destruct (summarize_long_text_effect _ _ _ _ _ _ Hs) as [[Hd1 Hs1] Hlen].
  unfold db_add_summary in Hrun. injection Hrun as <- <- <-.
  cbn [summaries documents sum_word_count sum_summary_text].
  split; [|split; [|split; [|split]]].
  - exists d, text, r, w1. repeat split; assumption.
  - now apply Hlen.
  - rewrite <- Hs1. apply next_id_fresh.
  - now rewrite Hs1.
  - assumption.
Qed.


(** A call of [create_summary] that raises stores nothing. *)
Lemma create_summary_raised (document_id user_id mx mn : Z)
    (w : World) (e : exn) (w' : World) :
  create_summary env document_id user_id mx mn w = (Raised e, w') ->
  same_database w w'.
Proof.
  intros Hrun.
  destruct (create_summary_cases document_id user_id mx mn w)
    as [[e0 He]|[d [text [Hd [Ho [Ht Hne]]]]]].
  - rewrite He in Hrun. injection Hrun as _ <-. now split.
  - rewrite (create_summary_passed _ _ _ _ _ d text Hd Ho Ht Hne) in Hrun.
    destruct (summarize_long_text env text mx mn w) as [[r|e1] w1] eqn:Hs.
    + unfold db_add_summary in Hrun. discriminate.
    + injection Hrun as _ <-.
      now apply summarize_long_text_effect in Hs.
Qed.

(** X7. A call of [create_summary] that raises leaves the two tables as
    they were, whether it fails a check or the summarization fails: no row
    is stored for a summary that was not produced. *)
Theorem create_summary_failure_stores_nothing (document_id user_id mx mn : Z)
    (w : World) (e : exn) (w' : World) :
  create_summary env document_id user_id mx mn w = (Raised e, w') ->
  same_database w w'.
Proof. apply create_summary_raised. Qed.

(** X8. The handler of POST [/generate] raises nothing but the HTTP error
    500: the exception of [create_summary] that it wraps, the errors 404,
    403 and 400 of the checks included, is only named in the detail; and
    a request that fails stores nothing. *)
Theorem handler_answers_500 (summary_data : SummaryCreate) (user_id : Z)
    (w : World) (e : exn) (w' : World) :
  Router.generate_summary env summary_data user_id w = (Raised e, w') ->
  (exists e0 : exn,
     create_summary env (document_id summary_data) user_id
                    (max_length summary_data) (min_length summary_data) w
     = (Raised e0, w')
     /\ e = HTTPException 500
              ("Failed to generate summary: " ++ str_exn env e0)%string)
  /\ (documents w !! document_id summary_data = None ->
      e = HTTPException 500
            ("Failed to generate summary: "
             ++ str_exn env (HTTPException 404 "Document not found"))%string)
  /\ same_database w w'.
Proof.
  intros Hrun. unfold Router.generate_summary, try_except in Hrun.
  destruct (create_summary env (document_id summary_data) user_id
              (max_length summary_data) (min_length summary_data) w)
    as [[res|e0] w1] eqn:Hc; [discriminate|].
  unfold raise in Hrun. injection Hrun as <- <-.
  split; [eauto|]. split.
  - intros Hnone.
    destruct (create_summary_checks env (document_id summary_data) user_id
                (max_length summary_data) (min_length summary_data) w)
      as [H404 _].
    rewrite (H404 Hnone) in Hc. now injection Hc as <- <-.
  - now apply create_summary_raised in Hc.
Qed.

(** X9. A POST to [/generate] that is answered with a row satisfied the
    bounds of the schema, was made for a document of the user that has
    text, and the row stored carries the two lengths of the body. *)
Theorem post_generate_success (body : SummaryCreate) (user_id : Z)
    (w : World) (id : Z) (row : Summary) (w' : World) :
  Router.post_generate env body user_id w = (Returned (id, row), w') ->
  (100 <= max_length body <= 1024 /\ 50 <= min_length body <= 400)
  /\ (exists d : Document,
        documents w !! document_id body = Some d
        /\ doc_owner_id d = user_id
        /\ text_missing (extracted_text d) = false)
  /\ summaries w' !! id = Some row
  /\ sum_document_id row = document_id body
  /\ sum_owner_id row = user_id
  /\ sum_max_length row = max_length body
  /\ sum_min_length row = min_length body.
Proof.
  intros Hrun. unfold Router.post_generate in Hrun.
  rewrite bind_run in Hrun. unfold lift in Hrun.
  destruct (Schema.validate body) as [data|e] eqn:Hv; [|discriminate].
  assert (data = body) as ->.
  { unfold Schema.validate in Hv.
    destruct (negb _); [discriminate|].
    destruct (negb _); [discriminate|]. congruence. }
  apply validate_accepts in Hv.
  unfold Router.generate_summary, try_except in Hrun.
  destruct (create_summary env (document_id body) user_id
              (max_length body) (min_length body) w)
    as [[res|e0] w1] eqn:Hc; [|discriminate].
  injection Hrun as -> <-.
  apply create_summary_returned in Hc
    as [[d [text [r [w2 [Hd [Ho [Ht [Hne [_ ->]]]]]]]]] [_ [_ [Hs _]]]].
  split; [assumption|]. split.
  - exists d. repeat split; try assumption. rewrite Ht.
    destruct text; [congruence | reflexivity].
  - rewrite Hs, lookup_insert_eq. repeat split.
Qed.

End Create.

(** ** Queries over the table of summaries *)

Section Queries.

Variable created_at : Z -> Z.

Lemma query_filter_spec (cond : Z * Summary -> bool) (table : gmap Z Summary)
    (id : Z) (s : Summary) :
  In (id, s) (Routes.query_filter cond table)
  <-> table !! id = Some s /\ cond (id, s) = true.
Proof.
  unfold Routes.query_filter. rewrite filter_In, <- list_elem_of_In.
  now rewrite elem_of_map_to_list.
Qed.

Lemma NoDup_fst_filter (cond : Z * Summary -> bool)
    (rows : list (Z * Summary)) :
  NoDup (map fst rows) -> NoDup (map fst (List.filter cond rows)).
Proof.
  induction rows as [|r rows IH]; cbn; [auto|].
  intros Hnd. inversion Hnd as [|? ? Hnotin Hnd']; subst.
  destruct (cond r); cbn; [|auto].
  constructor; [|auto]. intros Hin. apply Hnotin.
  apply list_elem_of_In in Hin. apply list_elem_of_In.
  apply in_map_iff in Hin as [x [Hx Hin]]. apply filter_In in Hin as [Hin _].
  apply in_map_iff. eauto.
Qed.

Lemma query_filter_NoDup (cond : Z * Summary -> bool)
    (table : gmap Z Summary) :
  NoDup (map fst (Routes.query_filter cond table)).
Proof. apply NoDup_fst_filter, NoDup_fst_map_to_list. Qed.

Lemma insert_newest_perm (row : Z * Summary) (rows : list (Z * Summary)) :
  Permutation (Routes.insert_newest created_at row rows) (row :: rows).
Proof.
  induction rows as [|r rows IH]; cbn; [reflexivity|].
  destruct (created_at (fst r) <? created_at (fst row)); [reflexivity|].
  rewrite IH. apply perm_swap.
Qed.

Lemma order_by_newest_perm (rows : list (Z * Summary)) :
  Permutation (Routes.order_by_newest created_at rows) rows.
Proof.
  unfold Routes.order_by_newest.
  induction rows as [|r rows IH]; cbn; [reflexivity|].
  rewrite insert_newest_perm. now constructor.
Qed.

Lemma newest_first_older (r : Z * Summary) (rows : list (Z * Summary)) :
  newest_first created_at (r :: rows) ->
  forall r' : Z * Summary,
    created_at (fst r') < created_at (fst r) \/ In r' rows ->
    created_at (fst r') <= created_at (fst r).
Proof.
  intros [Hall _] r' [Hlt|Hin]; [lia|].
  rewrite Forall_forall in Hall. apply Hall. now apply list_elem_of_In.
Qed.

Lemma insert_newest_sorted (row : Z * Summary) (rows : list (Z * Summary)) :
  newest_first created_at rows ->
  newest_first created_at (Routes.insert_newest created_at row rows).
Proof.
  induction rows as [|r rows IH]; intros Hs; cbn [Routes.insert_newest].
  - cbn. auto.
  - destruct (Z.ltb_spec (created_at (fst r)) (created_at (fst row))).
    + cbn [newest_first]. split; [|assumption].
      destruct Hs as [Hall _]. constructor; [lia|].
      eapply Forall_impl; [exact Hall|]. cbn. intros; lia.
    + destruct Hs as [Hall Hs]. cbn [newest_first]. split; [|auto].
      apply Forall_forall. intros x Hx.
      apply list_elem_of_In in Hx.
      apply (Permutation_in _ (insert_newest_perm row rows)) in Hx.
      destruct Hx as [<-|Hx]; [lia|].
      rewrite Forall_forall in Hall. apply Hall. now apply list_elem_of_In.
Qed.

Lemma order_by_newest_sorted (rows : list (Z * Summary)) :
  newest_first created_at (Routes.order_by_newest created_at rows).
Proof.
  unfold Routes.order_by_newest.
  induction rows as [|r rows IH]; cbn [foldr]; [exact I|].
  now apply insert_newest_sorted.
Qed.

Lemma newest_first_drop (n : nat) (rows : list (Z * Summary)) :
  newest_first created_at rows -> newest_first created_at (drop n rows).
Proof.
  revert rows. induction n as [|n IH]; intros [|r rows] Hs; cbn; auto.
  apply IH. now destruct Hs.
Qed.

Lemma newest_first_take (n : nat) (rows : list (Z * Summary)) :
  newest_first created_at rows -> newest_first created_at (take n rows).
Proof.
  revert rows. induction n as [|n IH]; intros [|r rows] Hs; cbn; auto.
  destruct Hs as [Hall Hs]. split; [|auto]. now apply Forall_take.
Qed.

Lemma In_take_drop {A} (x : A) (n k : nat) (l : list A) :
  In x (take n (drop k l)) -> In x l.
Proof.
  intros H. apply list_elem_of_In. apply list_elem_of_In in H.
  eapply elem_of_sublist; [exact H|].
  etransitivity; [apply sublist_take | apply sublist_drop].
Qed.

Lemma NoDup_fst_take_drop (n k : nat) (rows : list (Z * Summary)) :
  NoDup (map fst rows) -> NoDup (map fst (take n (drop k rows))).
Proof.
  intros Hnd. eapply sublist_NoDup; [exact Hnd|].
  apply (fmap_sublist fst).
  etransitivity; [apply sublist_take | apply sublist_drop].
Qed.

(** The rows of a user, newest first: what the listing pages through. *)
Lemma owned_rows_spec (user_id : Z) (table : gmap Z Summary) :
  let rows := Routes.order_by_newest created_at
                (Routes.query_filter (Routes.owned_by user_id) table) in
  (forall id s, In (id, s) rows
                <-> table !! id = Some s /\ sum_owner_id s = user_id)
  /\ NoDup (map fst rows)
  /\ newest_first created_at rows
  /\ length rows
     = length (Routes.query_filter (Routes.owned_by user_id) table).
Proof.
  intros rows. subst rows.
  pose proof (order_by_newest_perm
                (Routes.query_filter (Routes.owned_by user_id) table)) as Hp.
  split; [|split; [|split]].
  - intros id s. split.
    + intros Hin. apply (Permutation_in _ Hp) in Hin.
      apply query_filter_spec in Hin as [Hl Ho]. split; [assumption|].
      unfold Routes.owned_by in Ho. cbn in Ho. lia.
    + intros [Hl Ho]. apply (Permutation_in _ (Permutation_sym Hp)).
      apply query_filter_spec. split; [assumption|].
      unfold Routes.owned_by. cbn. lia.
  - apply (proj2 (NoDup_Permutation_proper _ _ (Permutation_map fst Hp))).
    apply query_filter_NoDup.
  - apply order_by_newest_sorted.
  - now apply Permutation_length.
Qed.

(** X10. A page of [list_summaries]: the handler raises nothing and leaves
    the state alone; every row of the page is a row of the table that
    belongs to the user; no row comes twice; the rows come newest first;
    and there are at most [limit] of them, and at most [total]. *)
Theorem list_summaries_page (skip limit user_id : Z) (w : World) :
  0 <= limit ->
  exists page : Routes.SummaryPage,
    Routes.list_summaries created_at skip limit user_id w = (Returned page, w)
    /\ (forall id s,
          In (id, s) (Routes.page_summaries page) ->
          summaries w !! id = Some s /\ sum_owner_id s = user_id)
    /\ NoDup (map fst (Routes.page_summaries page))
    /\ newest_first created_at (Routes.page_summaries page)
    /\ Py.len (Routes.page_summaries page) <= limit
    /\ Py.len (Routes.page_summaries page) <= Routes.page_total page.
Proof.
  intros Hlimit.
  destruct (owned_rows_spec user_id (summaries w))
    as [Hin [Hnd [Hsorted Hlen]]].
  eexists. split; [reflexivity|].
  cbn [Routes.page_summaries Routes.page_total].
  unfold Routes.limit_rows, Routes.offset_rows.
  split; [|split; [|split; [|split]]].
  - intros id s H. apply In_take_drop in H. now apply Hin.
  - now apply NoDup_fst_take_drop.
  - now apply newest_first_take, newest_first_drop.
  - unfold Py.len. rewrite length_take. lia.
  - unfold Py.len. rewrite length_take, length_drop, <- Hlen. lia.
Qed.

(** X11. Paging through [list_summaries].  The total reported is the same
    on every page and is the number of rows of the user; the page that
    starts at 0 and asks for that many rows holds every row of the user;
    two pages that follow each other make up the page of their joint
    length; and a page that starts at or after the total is empty. *)
Theorem list_summaries_paging (user_id : Z) (w : World) :
  exists (rows : Z -> Z -> list (Z * Summary)) (total : Z),
    (forall skip limit,
       Routes.list_summaries created_at skip limit user_id w
       = (Returned (Routes.mkSummaryPage (rows skip limit) total skip limit),
          w))
    /\ Py.len (rows 0 total) = total
    /\ (forall id s,
          summaries w !! id = Some s -> sum_owner_id s = user_id ->
          In (id, s) (rows 0 total))
    /\ (forall skip a b,
          0 <= skip -> 0 <= a -> 0 <= b ->
          rows skip a ++ rows (skip + a) b = rows skip (a + b))
    /\ (forall skip limit, total <= skip -> rows skip limit = []).
Proof.
  destruct (owned_rows_spec user_id (summaries w))
    as [Hin [Hnd [Hsorted Hlen]]].
  set (owned := Routes.query_filter (Routes.owned_by user_id) (summaries w))
    in *.
  set (sorted := Routes.order_by_newest created_at owned) in *.
  exists (fun skip limit =>
            Routes.limit_rows limit (Routes.offset_rows skip sorted)),
         (Py.len owned).
  unfold Routes.limit_rows, Routes.offset_rows, Py.len.
  split; [|split; [|split; [|split]]].
  - intros skip limit. reflexivity.
  - rewrite length_take, length_drop. cbn. lia.
  - intros id s Hl Ho. change (Z.to_nat 0) with 0%nat. rewrite drop_0.
    rewrite take_ge by lia. now apply Hin.
  - intros skip a b Hskip Ha Hb.
    replace (Z.to_nat (skip + a)) with (Z.to_nat skip + Z.to_nat a)%nat
      by lia.
    rewrite <- drop_drop, take_take_drop. f_equal. lia.
  - intros skip limit Hskip. rewrite drop_ge by lia. now destruct (Z.to_nat limit).
Qed.

End Queries.

(** ** Reading and deleting rows *)

Section Rows.

Variable env : Env.
Variable created_at : Z -> Z.

(** The three outcomes of [get_summary]. *)
Lemma get_summary_cases (summary_id user_id : Z) (w : World) :
  (summaries w !! summary_id = None ->
   Routes.get_summary summary_id user_id w
   = (Raised (HTTPException 404 "Summary not found"), w))
  /\ (forall s, summaries w !! summary_id = Some s ->
                sum_owner_id s <> user_id ->
                Routes.get_summary summary_id user_id w
                = (Raised (HTTPException 403 "Access denied"), w))
  /\ (forall s, summaries w !! summary_id = Some s ->
                sum_owner_id s = user_id ->
                Routes.get_summary summary_id user_id w
                = (Returned (summary_id, s), w)).
Proof.
  unfold Routes.get_summary. rewrite bind_run. cbn [get_world].
  split; [|split].
  - intros ->. reflexivity.
  - intros s -> Hne. destruct (Z.eqb_spec (sum_owner_id s) user_id);
      [contradiction | reflexivity].
  - intros s -> Heq. destruct (Z.eqb_spec (sum_owner_id s) user_id);
      [reflexivity | contradiction].
Qed.

Lemma owned_count_insert (user_id id : Z) (row : Summary)
    (table : gmap Z Summary) :
  table !! id = None ->
  length (Routes.query_filter (Routes.owned_by user_id) (<[id := row]> table))
  = ((if (sum_owner_id row =? user_id)%Z then 1 else 0)
     + length (Routes.query_filter (Routes.owned_by user_id) table))%nat.
Proof.
  intros Hfresh. unfold Routes.query_filter.
  pose proof (map_to_list_insert table id row Hfresh) as Hp.
  assert (forall l l' : list (Z * Summary),
            Permutation l l' ->
            length (List.filter (Routes.owned_by user_id) l)
            = length (List.filter (Routes.owned_by user_id) l')) as Hlen.
  { induction 1; cbn;
      repeat match goal with
             | |- context [Routes.owned_by ?u ?x] =>
                 destruct (Routes.owned_by u x)
             end; cbn; congruence. }
  rewrite (Hlen _ _ Hp). cbn [List.filter].
  unfold Routes.owned_by at 1. cbn [snd].
  now destruct (sum_owner_id row =? user_id).
Qed.

(** X12. A summary that [create_summary] has just returned can be read
    back by its user under the key returned, is refused to every other
    user, and counts for one more in the total of the listing of its
    user. *)
Theorem created_summary_is_readable (document_id user_id mx mn : Z)
    (w : World) (id : Z) (row : Summary) (w' : World) :
  create_summary env document_id user_id mx mn w = (Returned (id, row), w') ->
  Routes.get_summary id user_id w' = (Returned (id, row), w')
  /\ (forall other : Z,
        other <> user_id ->
        Routes.get_summary id other w'
        = (Raised (HTTPException 403 "Access denied"), w'))
  /\ (forall skip limit before after,
        fst (Routes.list_summaries created_at skip limit user_id w)
        = Returned before ->
        fst (Routes.list_summaries created_at skip limit user_id w')
        = Returned after ->
        Routes.page_total after = Routes.page_total before + 1).
Proof.
  intros Hrun.
  apply create_summary_returned in Hrun
    as [[d [text [r [w1 [_ [_ [_ [_ [_ Hrow]]]]]]]]] [_ [Hfresh [Hs _]]]].
  assert (sum_owner_id row = user_id) as Ho by now rewrite Hrow.
  destruct (get_summary_cases id user_id w') as [_ [_ Hget]].
  split; [|split].
  - apply Hget; [|assumption]. now rewrite Hs, lookup_insert_eq.
  - intros other Hother.
    destruct (get_summary_cases id other w') as [_ [H403 _]].
    apply (H403 row); [|congruence]. now rewrite Hs, lookup_insert_eq.
  - intros skip limit before after Hb Ha.
    cbn in Hb, Ha. injection Hb as <-. injection Ha as <-.
    cbn [Routes.page_total]. unfold Py.len.
    rewrite Hs, owned_count_insert by assumption.
    rewrite Ho, Z.eqb_refl. lia.
Qed.

(** What a call of [delete_summary] that returns has done. *)
Lemma delete_summary_returned (summary_id user_id : Z) (w w' : World) :
  Routes.delete_summary summary_id user_id w = (Returned tt, w') ->
  (exists s, summaries w !! summary_id = Some s /\ sum_owner_id s = user_id)
  /\ summaries w' !! summary_id = None
  /\ (forall id, id <> summary_id -> summaries w' !! id = summaries w !! id)
  /\ documents w' = documents w
  /\ Routes.get_summary summary_id user_id w'
     = (Raised (HTTPException 404 "Summary not found"), w').
Proof.
  unfold Routes.delete_summary. rewrite bind_run. cbn [get_world].
  destruct (summaries w !! summary_id) as [s|] eqn:Hs; [|discriminate].
  destruct (Z.eqb_spec (sum_owner_id s) user_id) as [Ho|Ho];
    [|discriminate].
  cbn [negb]. unfold Routes.db_delete_summary. intros H.
  injection H as <-. cbn [summaries documents].
  assert (delete summary_id (summaries w) !! summary_id = None) as Hgone
    by apply lookup_delete_eq.
  split; [eauto|]. split; [assumption|]. split; [|split].
  - intros id Hid. now apply lookup_delete_ne.
  - reflexivity.
  - now apply get_summary_cases.
Qed.

(** X13. A call of [delete_summary] that returns has removed the row of
    that key, which was a row of the user, and nothing else: every other
    row and the documents are as before, and reading the key now gives the
    error 404. *)
Theorem delete_summary_removes (summary_id user_id : Z) (w w' : World) :
  Routes.delete_summary summary_id user_id w = (Returned tt, w') ->
  (exists s, summaries w !! summary_id = Some s /\ sum_owner_id s = user_id)
  /\ summaries w' !! summary_id = None
  /\ (forall id, id <> summary_id -> summaries w' !! id = summaries w !! id)
  /\ documents w' = documents w
  /\ Routes.get_summary summary_id user_id w'
     = (Raised (HTTPException 404 "Summary not found"), w').
Proof. apply delete_summary_returned. Qed.

(** What a call of [delete_summary] that raises has found. *)
Lemma delete_summary_raised (summary_id user_id : Z) (w : World)
    (e : exn) (w' : World) :
  Routes.delete_summary summary_id user_id w = (Raised e, w') ->
  w' = w
  /\ ((e = HTTPException 404 "Summary not found"
       /\ summaries w !! summary_id = None)
      \/ (e = HTTPException 403 "Access denied"
          /\ exists s, summaries w' !! summary_id = Some s
                       /\ sum_owner_id s <> user_id)).
Proof.
  unfold Routes.delete_summary. rewrite bind_run. cbn [get_world].
  destruct (summaries w !! summary_id) as [s|] eqn:Hs.
  - destruct (Z.eqb_spec (sum_owner_id s) user_id) as [Ho|Ho]; cbn [negb].
    + unfold Routes.db_delete_summary. discriminate.
    + intros H. injection H as <- <-. split; [reflexivity|]. right. eauto.
  - intros H. injection H as <- <-. split; [reflexivity|]. now left.
Qed.

(** X14. A call of [delete_summary] that raises has changed nothing: it
    raises the error 404 when there is no row of that key and the error
    403 when the row belongs to another user, which is thereby kept. *)
Theorem delete_summary_refuses (summary_id user_id : Z) (w : World)
    (e : exn) (w' : World) :
  Routes.delete_summary summary_id user_id w = (Raised e, w') ->
  w' = w
  /\ ((e = HTTPException 404 "Summary not found"
       /\ summaries w !! summary_id = None)
      \/ (e = HTTPException 403 "Access denied"
          /\ exists s, summaries w' !! summary_id = Some s
                       /\ sum_owner_id s <> user_id)).
Proof. apply delete_summary_raised. Qed.

(** X15. [get_document_summaries] raises nothing and leaves the state
    alone, even for a document that does not exist; the rows it returns are
    exactly the rows of the table for that document that belong to the
    user, each once, newest first; its total and its limit are the number
    of these rows.  When every summary belongs to the owner of its
    document, the page for a document of another user is empty. *)
Theorem get_document_summaries_page (document_id user_id : Z) (w : World) :
  exists rows : list (Z * Summary),
    Routes.get_document_summaries created_at document_id user_id w
    = (Returned (Routes.mkSummaryPage rows (Py.len rows) 0 (Py.len rows)), w)
    /\ (forall id s,
          In (id, s) rows
          <-> summaries w !! id = Some s
              /\ sum_document_id s = document_id
              /\ sum_owner_id s = user_id)
    /\ NoDup (map fst rows)
    /\ newest_first created_at rows
    /\ (db_consistent w ->
        forall d, documents w !! document_id = Some d ->
                  doc_owner_id d <> user_id -> rows = []).
Proof.
  eexists. split; [reflexivity|].
  set (cond := fun row : Z * Summary =>
                 (sum_document_id (snd row) =? document_id)
                 && (sum_owner_id (snd row) =? user_id)).
  pose proof (order_by_newest_perm created_at
                (Routes.query_filter cond (summaries w))) as Hp.
  assert (forall id s,
            In (id, s) (Routes.order_by_newest created_at
                          (Routes.query_filter cond (summaries w)))
            <-> summaries w !! id = Some s
                /\ sum_document_id s = document_id
                /\ sum_owner_id s = user_id) as Hin.
  { intros id s. split.
    - intros H. apply (Permutation_in _ Hp) in H.
      apply query_filter_spec in H as [Hl Hc]. subst cond. cbn in Hc.
      apply andb_true_iff in Hc as [Hd Ho]. repeat split; [assumption|lia|lia].
    - intros [Hl [Hd Ho]]. apply (Permutation_in _ (Permutation_sym Hp)).
      apply query_filter_spec. split; [assumption|]. subst cond. cbn.
      apply andb_true_iff. split; lia. }
  split; [exact Hin|]. split; [|split].
  - apply (proj2 (NoDup_Permutation_proper _ _ (Permutation_map fst Hp))).
    apply query_filter_NoDup.
  - apply order_by_newest_sorted.
  - intros Hcons d Hd Hother.
    destruct (Routes.order_by_newest created_at
                (Routes.query_filter cond (summaries w)))
      as [|[id s] rows] eqn:Hrows; [reflexivity|].
    exfalso.
    destruct (proj1 (Hin id s) (or_introl eq_refl)) as [Hl [Hdoc Ho]].
    destruct (Hcons id s Hl) as [d' [Hd' Ho']]. congruence.
Qed.

End Rows.

(** ** The summaries and their documents *)

Section Integrity.

Variable env : Env.

Lemma db_consistent_same (w w' : World) :
  same_database w w' -> db_consistent w -> db_consistent w'.
Proof.
  intros [Hd Hs] Hc id s Hl. rewrite Hs in Hl. rewrite Hd.
  exact (Hc id s Hl).
Qed.

Lemma create_summary_consistent (document_id user_id mx mn : Z) (w : World)
    (o : outcome (Z * Summary)) (w' : World) :
  create_summary env document_id user_id mx mn w = (o, w') ->
  db_consistent w -> db_consistent w'.
Proof.
  intros Hrun Hc. destruct o as [[id row]|e].
  - apply create_summary_returned in Hrun
      as [[d [text [r [w1 [Hd [Ho [_ [_ [_ Hrow]]]]]]]]] [_ [Hfresh [Hs Hdocs]]]].
    intros id' s Hl. rewrite Hs in Hl. rewrite Hdocs.
    destruct (Z.eq_dec id id') as [<-|Hne].
    + rewrite lookup_insert_eq in Hl. injection Hl as <-.
      exists d. rewrite Hrow. cbn. auto.
    + rewrite lookup_insert_ne in Hl by assumption. exact (Hc id' s Hl).
  - apply create_summary_raised in Hrun.
    now apply (db_consistent_same w).
Qed.

(** The run of [delete_document]. *)
Lemma delete_document_run (document_id user_id : Z) (w : World) :
  DocumentService.delete_document document_id user_id w
  = match documents w !! document_id with
    | None => (Raised (HTTPException 404 "Document not found"), w)
    | Some d =>
        if doc_owner_id d =? user_id
        then (Returned true,
              mkWorld (gen_calls w) (model_loaded w) (clock_reads w)
                      (delete document_id (documents w))
                      (filter (fun row => sum_document_id (snd row)
                                          <> document_id)
                              (summaries w)))
        else (Raised (HTTPException 403 "Access denied"), w)
    end.
Proof.
  unfold DocumentService.delete_document,
    DocumentService.get_document_by_id.
  rewrite !bind_run. cbn [get_world].
  destruct (documents w !! document_id) as [d|]; [|reflexivity].
  now destruct (doc_owner_id d =? user_id).
Qed.

(** X16. The operations that write to the database keep every summary
    attached to a document of the table that has the same owner:
    [create_summary] and the handler of POST [/generate], whether they
    return or raise, [delete_summary], and [delete_document], which takes
    the summaries of the document with it. *)
Theorem writes_keep_summaries_attached (w : World) :
  db_consistent w ->
  (forall document_id user_id mx mn o w',
     create_summary env document_id user_id mx mn w = (o, w') ->
     db_consistent w')
  /\ (forall summary_data user_id o w',
        Router.generate_summary env summary_data user_id w = (o, w') ->
        db_consistent w')
  /\ (forall summary_id user_id o w',
        Routes.delete_summary summary_id user_id w = (o, w') ->
        db_consistent w')
  /\ (forall document_id user_id o w',
        DocumentService.delete_document document_id user_id w = (o, w') ->
        db_consistent w').
Proof.
  intros Hc. split; [|split; [|split]].
  - intros document_id user_id mx mn o w' Hrun.
    now apply (create_summary_consistent _ _ _ _ _ _ _ Hrun).
  - intros summary_data user_id o w' Hrun.
    unfold Router.generate_summary, try_except in Hrun.
    destruct (create_summary env (document_id summary_data) user_id
                (max_length summary_data) (min_length summary_data) w)
      as [[res|e] w1] eqn:Hcreate.
    + injection Hrun as _ <-.
      now apply (create_summary_consistent _ _ _ _ _ _ _ Hcreate).
    + unfold raise in Hrun. injection Hrun as _ <-.
      now apply (create_summary_consistent _ _ _ _ _ _ _ Hcreate).
  - intros summary_id user_id o w' Hrun. destruct o as [[]|e].
    + apply delete_summary_returned in Hrun as [_ [Hgone [Hrest [Hd _]]]].
      intros id s Hl. rewrite Hd.
      destruct (Z.eq_dec id summary_id) as [->|Hne]; [congruence|].
      rewrite Hrest in Hl by assumption. exact (Hc id s Hl).
    + apply delete_summary_raised in Hrun as [-> _]. assumption.
  - intros document_id user_id o w' Hrun.
    rewrite delete_document_run in Hrun.
    destruct (documents w !! document_id) as [d|] eqn:Hd.
    + destruct (doc_owner_id d =? user_id); injection Hrun as _ <-;
        [|assumption].
      intros id s Hl. cbn [summaries documents] in *.
      apply map_lookup_filter_Some in Hl as [Hl Hne]. cbn in Hne.
      destruct (Hc id s Hl) as [d' [Hd' Ho]].
      exists d'. split; [|assumption].
      rewrite lookup_delete_ne by congruence. assumption.
    + injection Hrun as _ <-. assumption.
Qed.

(** X17. [delete_document] returns only for a document of the user; it
    then has removed the document and all its summaries, and kept every
    other document and every summary of another document; afterwards
    [create_summary] for that document raises the error 404.  When it
    raises, with the error 404 for a missing document or 403 for a
    document of another user, nothing has changed. *)
Theorem delete_document_cascades (document_id user_id : Z) (w : World)
    (o : outcome bool) (w' : World) :
  DocumentService.delete_document document_id user_id w = (o, w') ->
  match o with
  | Returned b =>
      b = true
      /\ (exists d, documents w !! document_id = Some d
                    /\ doc_owner_id d = user_id)
      /\ documents w' !! document_id = None
      /\ (forall id, id <> document_id ->
                     documents w' !! id = documents w !! id)
      /\ (forall id s,
            summaries w' !! id = Some s
            <-> summaries w !! id = Some s
                /\ sum_document_id s <> document_id)
      /\ (forall mx mn,
            create_summary env document_id user_id mx mn w'
            = (Raised (HTTPException 404 "Document not found"), w'))
  | Raised e =>
      w' = w
      /\ ((e = HTTPException 404 "Document not found"
           /\ documents w !! document_id = None)
          \/ (e = HTTPException 403 "Access denied"
              /\ exists d, documents w !! document_id = Some d
                           /\ doc_owner_id d <> user_id))
  end.
Proof.
  intros Hrun. rewrite delete_document_run in Hrun.
  destruct (documents w !! document_id) as [d|] eqn:Hd.
  - destruct (Z.eqb_spec (doc_owner_id d) user_id) as [Ho|Ho];
      injection Hrun as <- <-.
    + cbn [documents summaries].
      assert (delete document_id (documents w) !! document_id = None)
        as Hgone by apply lookup_delete_eq.
      split; [reflexivity|]. split; [eauto|]. split; [assumption|].
      split; [|split].
      * intros id Hid. now apply lookup_delete_ne.
      * intros id s. rewrite map_lookup_filter_Some. reflexivity.
      * intros mx mn.
        now apply (create_summary_checks env document_id user_id mx mn).
    + split; [reflexivity|]. right. eauto.
  - injection Hrun as <- <-. split; [reflexivity|]. now left.
Qed.

End Integrity.

(** ** The further properties on sample runs *)

Section MoreSamples.

Import Sample Scenario.

Lemma archive_consistent : db_consistent archive.
Proof.
  intros id s Hl. apply elem_of_map_to_list in Hl.
  vm_compute in Hl.
  repeat (apply elem_of_cons in Hl as [Hl|Hl];
          [injection Hl as -> ->; eexists; split; reflexivity|]).
  now apply elem_of_nil in Hl.
Qed.


Lemma loaded_model_is_reused_witness :
  summarize_long_text (with_loader lead_env (Some "no such file"))
                      "one two three" 400 150 archive
  = summarize_long_text lead_env "one two three" 400 150 archive.
Proof.
  exact (proj1 (loaded_model_is_reused lead_env (Some "no such file")
                  "one two three" 400 150 archive eq_refl)).
Defined.

Lemma chunk_failure_aborts_witness :
  exists w' : World,
    summarize_long_text fragile_env long_text 400 150 fresh
    = (Raised (ModelError "CUDA out of memory"), w')
    /\ new_calls fresh w'
       = [mkGenCall full_chunk 200 80; mkGenCall full_chunk 200 80;
          mkGenCall "w" 200 80].
Proof.
  destruct (chunk_failure_aborts fragile_env long_text 400 150 fresh
              [full_chunk; full_chunk] "w" []
              (ModelError "CUDA out of memory"))
    as [w' [Hrun [Hcalls _]]].
  - vm_compute. reflexivity.
  - right. reflexivity.
  - vm_compute. reflexivity.
  - repeat constructor;
      (eexists; split; [vm_compute; reflexivity | vm_compute; reflexivity]).
  - vm_compute. reflexivity.
  - exists w'. auto.
Defined.

Lemma chunk_text_bad_size_witness :
  chunk_text "a b c" 0 fresh
  = (Raised (ValueError "range() arg 3 must not be zero"), fresh)
  /\ chunk_text "a b c" (-2) fresh = (Returned [], fresh).
Proof.
  split.
  - apply (proj1 (chunk_text_bad_size "a b c" 0 fresh)). reflexivity.
  - apply (proj2 (chunk_text_bad_size "a b c" (-2) fresh)). lia.
Defined.

Lemma chunks_are_normal_witness :
  Py.join " " ["a b"; "c d"; "e"] = Py.join " " (Py.split "a b  c d e")
  /\ chunk_text "c d" 2 fresh = (Returned ["c d"], fresh).
Proof.
  destruct (chunks_are_normal "a b  c d e" 2 fresh ["a b"; "c d"; "e"]
              ltac:(lia) ltac:(vm_compute; reflexivity)) as [Hjoin Hfix].
  split; [exact Hjoin|]. apply Hfix. cbn. auto.
Defined.


Lemma create_summary_failure_stores_nothing_witness :
  exists (e : exn) (w' : World),
    create_summary offline_env 1 7 100 50 library = (Raised e, w')
    /\ same_database library w'.
Proof.
  eexists. eexists. split; [vm_compute; reflexivity|].
  match goal with
  | |- same_database _ ?w' =>
      apply (create_summary_failure_stores_nothing offline_env 1 7 100 50
               library
               (HTTPException 500 "Failed to load AI model: no such file") w')
  end.
  vm_compute. reflexivity.
Defined.

Lemma handler_answers_500_witness :
  exists w' : World,
    Router.generate_summary lead_env (mkSummaryCreate 99 400 150) 7 library
    = (Raised (HTTPException 500
                 "Failed to generate summary: Document not found"), w')
    /\ same_database library w'.
Proof.
  eexists. split; [vm_compute; reflexivity|].
  match goal with
  | |- same_database _ ?w' =>
      destruct (handler_answers_500 lead_env (mkSummaryCreate 99 400 150) 7
                  library
                  (HTTPException 500
                     "Failed to generate summary: Document not found") w'
                  ltac:(vm_compute; reflexivity)) as [_ [_ Hdb]]
  end.
  exact Hdb.
Defined.

Lemma post_generate_success_witness :
  exists (id : Z) (row : Summary) (w' : World),
    Router.post_generate lead_env (mkSummaryCreate 1 100 400) 7 library
    = (Returned (id, row), w')
    /\ summaries w' !! id = Some row
    /\ sum_max_length row = 100 /\ sum_min_length row = 400.
Proof.
  eexists. eexists. eexists. split; [vm_compute; reflexivity|].
  match goal with
  | |- summaries ?w' !! ?id = Some ?row /\ _ =>
      destruct (post_generate_success lead_env (mkSummaryCreate 1 100 400) 7
                  library id row w' ltac:(vm_compute; reflexivity))
        as [_ [_ [Hl [_ [_ [Hmx Hmn]]]]]]
  end.
  auto.
Defined.

Lemma list_summaries_page_witness :
  0 <= 1
  /\ exists page : Routes.SummaryPage,
       Routes.list_summaries stamp 0 1 7 archive = (Returned page, archive)
       /\ Py.len (Routes.page_summaries page) <= 1
       /\ newest_first stamp (Routes.page_summaries page).
Proof.
  split; [lia|].
  destruct (list_summaries_page stamp 0 1 7 archive ltac:(lia))
    as [page [Hrun [_ [_ [Hsorted [Hlen _]]]]]].
  exists page. auto.
Defined.

Lemma list_summaries_paging_witness :
  exists (rows : Z -> Z -> list (Z * Summary)) (total : Z),
    Routes.list_summaries stamp 0 2 7 archive
    = (Returned (Routes.mkSummaryPage (rows 0 2) total 0 2), archive)
    /\ In (1, note 1 7 "one") (rows 0 total)
    /\ rows 0 1 ++ rows (0 + 1) 1 = rows 0 (1 + 1).
Proof.
  destruct (list_summaries_paging stamp 7 archive)
    as [rows [total [Hrun [_ [Hall [Hcompose _]]]]]].
  exists rows, total. split; [apply Hrun|]. split.
  - apply Hall; reflexivity.
  - apply Hcompose; lia.
Defined.

Lemma created_summary_is_readable_witness :
  exists (id : Z) (row : Summary) (w' : World),
    create_summary lead_env 1 7 100 50 library = (Returned (id, row), w')
    /\ Routes.get_summary id 7 w' = (Returned (id, row), w')
    /\ Routes.get_summary id 8 w'
       = (Raised (HTTPException 403 "Access denied"), w').
Proof.
  eexists. eexists. eexists. split; [vm_compute; reflexivity|].
  match goal with
  | |- Routes.get_summary ?id _ ?w' = (Returned (_, ?row), _) /\ _ =>
      destruct (created_summary_is_readable lead_env stamp 1 7 100 50 library
                  id row w' ltac:(vm_compute; reflexivity))
        as [Hget [Hother _]]
  end.
  split; [exact Hget|]. apply Hother. lia.
Defined.

Lemma delete_summary_removes_witness :
  exists w' : World,
    Routes.delete_summary 1 7 archive = (Returned tt, w')
    /\ summaries w' !! 1 = None
    /\ summaries w' !! 2 = Some (note 1 7 "one two").
Proof.
  eexists. split; [vm_compute; reflexivity|].
  match goal with
  | |- summaries ?w' !! _ = None /\ _ =>
      destruct (delete_summary_removes 1 7 archive w'
                  ltac:(vm_compute; reflexivity))
        as [_ [Hgone [Hrest _]]]
  end.
  split; [exact Hgone|]. rewrite Hrest by lia. reflexivity.
Defined.

Lemma delete_summary_refuses_witness :
  Routes.delete_summary 3 7 archive
  = (Raised (HTTPException 403 "Access denied"), archive)
  /\ summaries archive !! 3 = Some (note 4 8 "four").
Proof.
  destruct (delete_summary_refuses 3 7 archive
              (HTTPException 403 "Access denied") archive
              ltac:(vm_compute; reflexivity)) as [_ Hcases].
  split; [vm_compute; reflexivity | reflexivity].
Defined.

Lemma get_document_summaries_page_witness :
  Routes.get_document_summaries stamp 4 7 archive
  = (Returned (Routes.mkSummaryPage [] 0 0 0), archive).
Proof.
  destruct (get_document_summaries_page stamp 4 7 archive)
    as [rows [Hrun [_ [_ [_ Hempty]]]]].
  rewrite Hrun.
  rewrite (Hempty archive_consistent
             (mkDocument 8 "d.txt" (Some "four five")) eq_refl
             ltac:(cbn; lia)).
  reflexivity.
Defined.

Lemma writes_keep_summaries_attached_witness :
  db_consistent archive
  /\ db_consistent (snd (DocumentService.delete_document 1 7 archive))
  /\ db_consistent (snd (create_summary lead_env 4 8 400 150 archive)).
Proof.
  destruct (writes_keep_summaries_attached lead_env archive
              archive_consistent) as [Hcreate [_ [_ Hdelete]]].
  split; [exact archive_consistent|]. split.
  - apply (Hdelete 1 7 (fst (DocumentService.delete_document 1 7 archive))).
    apply surjective_pairing.
  - apply (Hcreate 4 8 400 150
             (fst (create_summary lead_env 4 8 400 150 archive))).
    apply surjective_pairing.
Defined.

Lemma delete_document_cascades_witness :
  exists w' : World,
    DocumentService.delete_document 1 7 archive = (Returned true, w')
    /\ documents w' !! 1 = None
    /\ summaries w' !! 1 = None
    /\ summaries w' !! 3 = Some (note 4 8 "four")
    /\ create_summary lead_env 1 7 400 150 w'
       = (Raised (HTTPException 404 "Document not found"), w').
Proof.
  eexists. split; [vm_compute; reflexivity|].
  match goal with
  | |- documents ?w' !! _ = None /\ _ =>
      pose proof (delete_document_cascades lead_env 1 7 archive
                    (Returned true) w' ltac:(vm_compute; reflexivity))
        as [_ [_ [Hgone [_ [Hrows Hcreate]]]]]
  end.
  split; [exact Hgone|]. split; [|split].
  - destruct (summaries _ !! 1) as [s|] eqn:Hs; [|reflexivity].
    apply Hrows in Hs as [Hs Hne].
    change (summaries archive !! 1) with (Some (note 1 7 "one")) in Hs.
    injection Hs as <-. now contradiction Hne.
  - apply Hrows. split; [reflexivity | cbn; lia].
  - apply Hcreate.
Defined.

End MoreSamples.

(** ** The query parameters of the listing *)

Section Paging.

Variable created_at : Z -> Z.


End Paging.

